(** * useSmartForm: the Field renderer and the Form wrapper

    A shallow embedding of [src/core/useSmartForm.ts] (the current version of
    the file, the one with the [password] and [tel] variants and the
    [multiple] file input).  React components become functions that produce a
    markup tree; the hooks that read the form-state engine become reads of an
    explicit engine state; the calls that mutate the engine ([register],
    [setValue]) become state transformers.  JavaScript objects used as maps
    (form values, the error map, JSX props) are finite maps keyed by strings. *)

From Stdlib Require Import ZArith Ascii String.
From stdpp Require Import gmap strings list fin_maps.

Set Warnings "-register-all".
Local Open Scope string_scope.

(** ** JavaScript values *)

(** A [File] object of the browser, as selected in a file input. *)
Record File := { file_name : string; file_size : Z }.

(** The values that a form field, a JSX attribute or a JSX child can hold.
    A finite number is carried by its mathematical value and stands for the
    Number that ECMAScript assigns to that value (the nearest double):
    [JNum n] is the integer [n], and [JDec m e] is [m * 10 ^ e] for a value
    that is not an integer ([e < 0], [m] no multiple of ten).  [JInfinity]
    is [Infinity] or [-Infinity], [JNaN] the not-a-number value.  The two
    zeros are not told apart. *)
Inductive JsValue :=
| JUndefined
| JNull
| JBool (b : bool)
| JNum (n : Z)
| JDec (mantissa exponent : Z)
| JInfinity (negative : bool)
| JNaN
| JStr (s : string)
| JFile (f : File)
| JArr (elems : list JsValue).

(** JavaScript truthiness, the test behind [c ? a : b], [a && b], [a || b]
    and [Boolean(a)].  Objects and arrays, the empty array included, are
    truthy.  A number is falsy when it is zero: an integer when it is [0],
    a fraction when it is so small that its double is zero (at most
    [2 ^ -1075] in magnitude). *)
Definition truthy (v : JsValue) : bool :=
  match v with
  | JUndefined | JNull | JNaN => false
  | JBool b => b
  | JNum n => negb (n =? 0)%Z
  | JDec m e => negb (Z.abs m * 2 ^ 1075 <=? 10 ^ (- e))%Z
  | JInfinity _ => true
  | JStr s => negb (String.eqb s "")
  | JFile _ | JArr _ => true
  end.

(** An optional property: absent means [undefined]. *)
Definition optional {A} (inj : A → JsValue) (o : option A) : JsValue :=
  match o with Some a => inj a | None => JUndefined end.

(** ** The state of the form-state engine *)

(** [{ message?: string }]: what the Field reads of a field error. *)
Record FieldError := { error_type : string; message : option string }.

(** The options of [register]; only [valueAsNumber] is ever passed. *)
Record RegisterOptions := { valueAsNumber : bool }.

Record FormState := {
  values : gmap string JsValue;          (* useWatch({ control }) *)
  errors : gmap string FieldError;       (* formState.errors *)
  fields : gmap string RegisterOptions   (* what register has bound so far *)
}.

Definition set_values (f : gmap string JsValue → gmap string JsValue)
    (st : FormState) : FormState :=
  {| values := f (values st); errors := errors st; fields := fields st |}.

Definition set_fields (f : gmap string RegisterOptions → gmap string RegisterOptions)
    (st : FormState) : FormState :=
  {| values := values st; errors := errors st; fields := f (fields st) |}.

Definition set_errors (e : gmap string FieldError) (st : FormState) : FormState :=
  {| values := values st; errors := e; fields := fields st |}.

(** ** Markup *)

(** [React.ChangeEvent<HTMLInputElement>], reduced to what the handlers read:
    [e.target.value] and [e.target.files] (a FileList, or null). *)
Record ChangeEvent := {
  target_value : string;
  target_files : option (list File)
}.

(** An event handler runs against the engine. *)
Definition Handler : Type := ChangeEvent → FormState → FormState.

Inductive PropValue :=
| PJs (v : JsValue)
| PHandler (h : Handler)
| PRef (field : string).

(** A React node: a primitive child ([null], [false], a string, ...) or an
    element.  The [key] of list children is not a prop and is left out. *)
Inductive ReactNode :=
| RJs (v : JsValue)
| RElem (tag : string) (props : gmap string PropValue) (children : list ReactNode).

(** The attributes of a JSX element (or the members of an object literal) in
    source order: [k={v}] or [{...obj}].  A later entry overrides an
    earlier one with the same key. *)
Inductive JsxAttr :=
| Attr (k : string) (v : PropValue)
| Spread (obj : gmap string PropValue).

Definition jsxProps (attrs : list JsxAttr) : gmap string PropValue :=
  foldl (λ acc a, match a with
                  | Attr k v => <[k := v]> acc
                  | Spread obj => obj ∪ acc
                  end) ∅ attrs.

(** [obj.k]: the property, or [undefined]. *)
Definition getProp (obj : gmap string PropValue) (k : string) : PropValue :=
  default (PJs JUndefined) (obj !! k).

Definition truthyProp (v : PropValue) : bool :=
  match v with
  | PJs v => truthy v
  | PHandler _ | PRef _ => true
  end.

(** [v ?? d] on a property. *)
Definition nullish (v d : PropValue) : PropValue :=
  match v with
  | PJs JUndefined | PJs JNull => d
  | _ => v
  end.

(** [c && node] as a JSX child: a falsy [c] is itself the child. *)
Definition jsAnd (c : JsValue) (node : ReactNode) : ReactNode :=
  if truthy c then node else RJs c.

(** Whether React puts anything in the document for a node: nothing for
    [null], [undefined], booleans and the empty string. *)
Definition renders (n : ReactNode) : bool :=
  match n with
  | RJs (JNull | JUndefined | JBool _) => false
  | RJs (JStr s) => negb (String.eqb s "")
  | _ => true
  end.

(** ** Rendering as a computation over the engine *)

Definition Render (A : Type) : Type := FormState → A * FormState.

#[global] Instance Render_ret : MRet Render := λ A a st, (a, st).
#[global] Instance Render_bind : MBind Render :=
  λ A B k m st, let '(a, st') := m st in k a st'.

(** [useWatch({ control })] and [formState.errors]. *)
Definition useWatch : Render (gmap string JsValue) := λ st, (values st, st).
Definition useErrors : Render (gmap string FieldError) := λ st, (errors st, st).

(** ** The form-state engine (external collaborator) *)

Module Engine.

(** Modelled from the spec: the numeric coercion of the state engine
    ("value coerced to numeric on read"; the string ["42"] yields the
    number [42]).  The engine's source is not part of the repository; the
    coercion is the one of the language, unary plus on a string: white
    space around the literal is dropped; a literal is a signed decimal
    (digits, an optional fraction, an optional exponent, with the digits on
    either side of the point optional but not on both), a signed
    [Infinity], or an unsigned hexadecimal, octal or binary integer
    ([0x], [0o], [0b]); a string of white space alone is [0]; anything else
    is [NaN]; a value too large for a double is [Infinity], one too small is
    [0].  The one exception is the empty input, which has no number:
    [valueAsNumber] is [NaN] there. *)

(** A digit of the radix, letters standing for ten and up. *)
Definition digit (radix : Z) (c : ascii) : option Z :=
  let n := Z.of_N (N_of_ascii c) in
  let d := if ((48 <=? n) && (n <=? 57))%Z then (n - 48)%Z
           else if ((97 <=? n) && (n <=? 122))%Z then (n - 87)%Z
           else if ((65 <=? n) && (n <=? 90))%Z then (n - 55)%Z
           else radix in
  if (d <? radix)%Z then Some d else None.

(** The digits a text starts with: their value on top of [acc], how many
    they are, and the text that follows them. *)
Fixpoint digits (radix : Z) (l : list ascii) (acc : Z) (count : nat)
    : Z * nat * list ascii :=
  match l with
  | [] => (acc, count, [])
  | c :: l' =>
      match digit radix c with
      | Some d => digits radix l' (radix * acc + d)%Z (S count)
      | None => (acc, count, l)
      end
  end.

(** White space, of the ASCII range: TAB, LF, VT, FF, CR and the space. *)
Definition isSpace (c : ascii) : bool :=
  let n := N_of_ascii c in
  ((9 <=? n) && (n <=? 13) || (n =? 32))%N.

Fixpoint skipSpaces (l : list ascii) : list ascii :=
  match l with
  | c :: l' => if isSpace c then skipSpaces l' else l
  | [] => []
  end.

Definition trim (l : list ascii) : list ascii :=
  rev (skipSpaces (rev (skipSpaces l))).

(** An optional sign: whether it is a minus, and what follows. *)
Definition sign (l : list ascii) : bool * list ascii :=
  match l with
  | c :: l' =>
      if Ascii.eqb c "-" then (true, l')
      else if Ascii.eqb c "+" then (false, l')
      else (false, l)
  | [] => (false, [])
  end.

(** The end of a decimal literal: nothing, or [e] or [E], an optional sign
    and at least one digit. *)
Definition exponentPart (l : list ascii) : option Z :=
  match l with
  | [] => Some 0%Z
  | c :: l' =>
      if Ascii.eqb c "e" || Ascii.eqb c "E" then
        let '(negative, l'') := sign l' in
        match digits 10 l'' 0 0 with
        | (v, S _, []) => Some (if negative then - v else v)%Z
        | _ => None
        end
      else None
  end.

(** An unsigned decimal literal, as a mantissa and a power of ten. *)
Definition decimalLiteral (l : list ascii) : option (Z * Z) :=
  let '(whole, nWhole, afterWhole) := digits 10 l 0 0 in
  let '(mantissa, nFraction, afterFraction) :=
    match afterWhole with
    | c :: l' =>
        if Ascii.eqb c "." then digits 10 l' whole 0 else (whole, 0%nat, afterWhole)
    | [] => (whole, 0%nat, [])
    end in
  match (nWhole + nFraction)%nat with
  | O => None
  | S _ =>
      match exponentPart afterFraction with
      | Some ex => Some (mantissa, (ex - Z.of_nat nFraction)%Z)
      | None => None
      end
  end.

(** [0x], [0o] or [0b] and at least one digit of that radix. *)
Definition radixLiteral (l : list ascii) : option Z :=
  match l with
  | zero :: c :: l' =>
      let radix :=
        if Ascii.eqb c "x" || Ascii.eqb c "X" then Some 16%Z
        else if Ascii.eqb c "o" || Ascii.eqb c "O" then Some 8%Z
        else if Ascii.eqb c "b" || Ascii.eqb c "B" then Some 2%Z
        else None in
      match radix with
      | Some r =>
          if Ascii.eqb zero "0" then
            match digits r l' 0 0 with
            | (v, S _, []) => Some v
            | _ => None
            end
          else None
      | None => None
      end
  | _ => None
  end.

(** The number [m * 10 ^ e]: as an integer when it is one, as a fraction
    without trailing zeros otherwise. *)
Fixpoint stripZeros (fuel : nat) (m e : Z) : Z * Z :=
  match fuel with
  | O => (m, e)
  | S fuel' =>
      if ((e <? 0) && (m mod 10 =? 0))%Z
      then stripZeros fuel' (m / 10)%Z (e + 1)%Z
      else (m, e)
  end.

(** A magnitude from [2 ^ 1024 - 2 ^ 970] on has no nearest double but
    [Infinity]; one up to [2 ^ -1075] has zero. *)
Definition overflows (m e : Z) : bool :=
  if (0 <=? e)%Z then (2 ^ 1024 - 2 ^ 970 <=? Z.abs m * 10 ^ e)%Z
  else ((2 ^ 1024 - 2 ^ 970) * 10 ^ (- e) <=? Z.abs m)%Z.

Definition underflows (m e : Z) : bool :=
  (e <? 0)%Z && (Z.abs m * 2 ^ 1075 <=? 10 ^ (- e))%Z.

Definition number (m e : Z) : JsValue :=
  if (m =? 0)%Z then JNum 0
  else if overflows m e then JInfinity (m <? 0)%Z
  else if underflows m e then JNum 0
  else if (0 <=? e)%Z then JNum (m * 10 ^ e)
  else
    let '(m', e') := stripZeros (Z.to_nat (- e)) m e in
    if (e' =? 0)%Z then JNum m' else JDec m' e'.

Definition toNumber (s : string) : JsValue :=
  if String.eqb s "" then JNaN
  else
    let l := trim (list_ascii_of_string s) in
    match l with
    | [] => JNum 0
    | _ =>
        match radixLiteral l with
        | Some v => number v 0
        | None =>
            let '(negative, unsigned) := sign l in
            if String.eqb (string_of_list_ascii unsigned) "Infinity"
            then JInfinity negative
            else
              match decimalLiteral unsigned with
              | Some (m, e) => number (if negative then - m else m)%Z e
              | None => JNaN
              end
        end
    end.

(** Modelled from the spec: how the engine reads the native value of a
    bound input, given the options the field was registered with. *)
Definition getFieldValueAs (raw : string) (opts : option RegisterOptions) : JsValue :=
  match opts with
  | Some {| valueAsNumber := true |} => toNumber raw
  | _ => JStr raw
  end.

(** Modelled from the spec: the engine's handling of a native input or
    blur event on a bound field ("register/bind-on-name"): the value read
    from the input is stored under the field's name. *)
Definition fieldChange (name : string) : Handler :=
  λ e st, set_values (<[name := getFieldValueAs (target_value e) (fields st !! name)]>) st.

(** Modelled from the spec: [register(name, options)] binds the field and
    returns the props to spread on the native element. *)
Definition register (name : string) (opts : RegisterOptions) : Render (gmap string PropValue) :=
  λ st, (jsxProps [Attr "name" (PJs (JStr name));
                   Attr "onChange" (PHandler (fieldChange name));
                   Attr "onBlur" (PHandler (fieldChange name));
                   Attr "ref" (PRef name)],
         set_fields (<[name := opts]>) st).

(** Modelled from the spec: the "explicit value setter". *)
Definition setValue (name : string) (v : JsValue) (st : FormState) : FormState :=
  set_values (<[name := v]>) st.

(** Modelled from the spec: the "submit-handler factory".  The handler it
    returns "performs full validation and invokes [onSubmit] only if the
    schema accepts; invalid submissions are swallowed".  The resolver
    answers with the coerced values or with the per-field errors, which
    become the error map.  A callback of the caller acts on the caller's
    own state, of a type [World] the engine knows nothing about. *)
Definition handleSubmit {World : Type}
    (resolver : gmap string JsValue → gmap string JsValue + gmap string FieldError)
    (onValid : gmap string JsValue → World → World)
    : FormState → World → FormState * World :=
  λ st w,
    match resolver (values st) with
    | inl coerced => (set_errors ∅ st, onValid coerced w)
    | inr errs => (set_errors errs st, w)
    end.

End Engine.

(** [register(name)]: no options. *)
Definition noOptions : RegisterOptions := {| valueAsNumber := false |}.

(** ** Field descriptors *)

(** The union [FieldType] of the source.  At run time [type] is a string;
    [fieldType] is the [switch], which falls to [default] on any other
    string. *)
Inductive FieldType :=
| text | number | checkbox | select | textarea | email
| file | date | range | radio | password | tel.

Definition fieldTypes : list string :=
  ["text"; "number"; "checkbox"; "select"; "textarea"; "email";
   "file"; "date"; "range"; "radio"; "password"; "tel"].

Definition fieldType (ty : string) : option FieldType :=
  if String.eqb ty "email" then Some email
  else if String.eqb ty "text" then Some text
  else if String.eqb ty "date" then Some date
  else if String.eqb ty "tel" then Some tel
  else if String.eqb ty "password" then Some password
  else if String.eqb ty "number" then Some number
  else if String.eqb ty "checkbox" then Some checkbox
  else if String.eqb ty "textarea" then Some textarea
  else if String.eqb ty "file" then Some file
  else if String.eqb ty "select" then Some select
  else if String.eqb ty "range" then Some range
  else if String.eqb ty "radio" then Some radio
  else None.

(** [FieldProps<TFormValues>]: the named props and [rest], the bag of
    native attributes passed through (whatever the destructuring of the
    component's argument leaves: [placeholder], [accept], [multiple],
    [onChange], ...). *)
Record FieldProps := {
  name : string;
  label : option string;
  checkBoxLabel : option string;
  type : option string;
  options : option (list string);
  showWhen : option (gmap string JsValue → bool);
  className : option string;
  displayValue : option bool;
  rest : gmap string PropValue
}.

(** An argument of [cn]: a class string, [false] or [undefined]. *)
Inductive ClassValue :=
| CStr (s : string)
| CFalse
| CUndefined.

(** [./styles], which the repository imports and the sources do not
    include: one class string per slot. *)
Record Styles := {
  style_input : string;
  style_checkbox : string;
  style_checkboxLabel : string;
  style_textarea : string;
  style_select : string;
  style_selectValue : string;
  style_range : string;
  style_radio : string;
  style_label : string;
  style_error : string
}.

(** ** The hook: [useSmartForm] *)

Section UseSmartForm.

(** [../utils/cn] and [./styles] are imported by the source and are not
    among the repository's files: they are parameters here. *)
Variable cn : list ClassValue → string.
Variable styles : Styles.

(** [hasError && "border-red-500"] and the optional [className]. *)
Definition errorClass (hasError : bool) : ClassValue :=
  if hasError then CStr "border-red-500" else CFalse.

Definition classArg (className : option string) : ClassValue :=
  match className with Some c => CStr c | None => CUndefined end.

(** [cn(base, hasError && "border-red-500", className)] *)
Definition classOf (base : string) (hasError : bool) (className : option string) : PropValue :=
  PJs (JStr (cn [CStr base; errorClass hasError; classArg className])).

Definition jsStr (s : string) : PropValue := PJs (JStr s).

(** A property used as a JSX child. *)
Definition childOf (v : PropValue) : ReactNode :=
  match v with PJs v => RJs v | _ => RJs JUndefined end.

(** The [onChange] closure of the [file] case.
<<
    if (rest.multiple) {
      const files = e.target.files ? Array.from(e.target.files) : [];
      methods.setValue?.(name, files);
    } else {
      const file = e.target.files?.[0] || null;
      methods.setValue?.(name, file);
    }
>> *)
Definition fileOnChange (name : string) (rest : gmap string PropValue) : Handler :=
  λ e st,
    if truthyProp (getProp rest "multiple") then
      let files := match target_files e with Some fl => fl | None => [] end in
      Engine.setValue name (JArr (JFile <$> files)) st
    else
      let first := optional JFile (target_files e ≫= head) in
      let file := if truthy first then first else JNull in
      Engine.setValue name file st.

(** The [switch (type)] that computes [inputElement].  In the [select] and
    [radio] arms the test [options ? .. : null] is one of truthiness: any
    array passes it, the empty one included; [register] is only reached
    when it does. *)
Definition inputElement (p : FieldProps) (ty : string)
    (values : gmap string JsValue) (hasError : bool) : Render ReactNode :=
  let name := name p in
  let rest := rest p in
  let className := className p in
  let baseProps :=
    jsxProps [Attr "id" (jsStr name); Spread rest;
              Attr "className" (classOf (style_input styles) hasError className)] in
  match fieldType ty with
  | Some (email | text | date | tel | password) =>
      reg ← Engine.register name noOptions;
      mret (RElem "input"
              (jsxProps [Attr "type" (jsStr ty); Spread reg; Spread baseProps]) [])
  | Some number =>
      reg ← Engine.register name {| valueAsNumber := true |};
      mret (RElem "input"
              (jsxProps [Attr "type" (jsStr ty); Spread reg; Spread baseProps]) [])
  | Some checkbox =>
      reg ← Engine.register name noOptions;
      mret (RElem "div" (jsxProps [Attr "className" (jsStr "flex items-center gap-2")])
        [RElem "input"
           (jsxProps [Attr "id" (jsStr name); Attr "type" (jsStr ty);
                      Spread reg; Spread rest;
                      Attr "className" (classOf (style_checkbox styles) hasError className)]) [];
         jsAnd (optional JStr (checkBoxLabel p))
           (RElem "label"
              (jsxProps [Attr "htmlFor" (jsStr name);
                         Attr "className" (jsStr (style_checkboxLabel styles))])
              [RJs (optional JStr (checkBoxLabel p))])])
  | Some textarea =>
      reg ← Engine.register name noOptions;
      mret (RElem "textarea"
              (jsxProps [Attr "id" (jsStr name); Spread reg; Spread rest;
                         Attr "className" (classOf (style_textarea styles) hasError className)]) [])
  | Some file =>
      mret (RElem "input"
              (jsxProps [Attr "id" (jsStr name); Attr "type" (jsStr ty);
                         Attr "accept" (getProp rest "accept");
                         Attr "multiple" (getProp rest "multiple");
                         Attr "onChange" (PHandler (fileOnChange name rest));
                         Spread rest;
                         Attr "className" (classOf (style_input styles) hasError className)]) [])
  | Some select =>
      match options p with
      | Some opts =>
          reg ← Engine.register name noOptions;
          mret (RElem "select"
                  (jsxProps [Attr "id" (jsStr name); Spread reg; Spread rest;
                             Attr "className" (classOf (style_select styles) hasError className)])
                  (RElem "option"
                     (jsxProps [Attr "value" (jsStr ""); Attr "disabled" (PJs (JBool true));
                                Attr "hidden" (PJs (JBool true))])
                     [childOf (nullish (getProp rest "placeholder") (jsStr "Select an option"))]
                   :: map (λ opt,
                        RElem "option"
                          (jsxProps [Attr "value" (jsStr opt);
                                     Attr "className" (jsStr (style_selectValue styles))])
                          [RJs (JStr opt)]) opts))
      | None => mret (RJs JNull)
      end
  | Some range =>
      reg ← Engine.register name {| valueAsNumber := true |};
      mret (RElem "div" ∅
        [RElem "input"
           (jsxProps [Attr "id" (jsStr name); Attr "type" (jsStr ty);
                      Spread reg; Spread rest;
                      Attr "className" (classOf (style_range styles) hasError className)]) [];
         jsAnd (optional JBool (displayValue p))
           (RElem "div"
              (jsxProps [Attr "className" (jsStr "text-sm text-muted-foreground mt-1")])
              [RJs (default JUndefined (values !! name))])])
  | Some radio =>
      match options p with
      | Some opts =>
          labels ← mapM (λ opt,
            reg ← Engine.register name noOptions;
            mret (RElem "label"
                    (jsxProps [Attr "className" (jsStr "inline-flex items-center gap-2 text-sm")])
                    [RElem "input"
                       (jsxProps [Attr "type" (jsStr "radio"); Attr "value" (jsStr opt);
                                  Spread reg;
                                  Attr "className" (classOf (style_radio styles) hasError className)]) [];
                     RElem "span" ∅ [RJs (JStr opt)]])) opts;
          mret (RElem "div" (jsxProps [Attr "className" (jsStr "flex flex-col gap-2")]) labels)
      | None => mret (RJs JNull)
      end
  | None => mret (RJs JNull)
  end.

(** The error paragraph: [error?.message ?? "This field is required"]. *)
Definition errorText (error : option FieldError) : string :=
  match error ≫= message with
  | Some m => m
  | None => "This field is required"
  end.

(** The wrapper that [Field] returns once [inputElement] is known. *)
Definition wrapper (p : FieldProps) (ty : string) (error : option FieldError)
    (hasError : bool) (input : ReactNode) : ReactNode :=
  RElem "div" (jsxProps [Attr "className" (jsStr "mb-4")])
    [jsAnd (optional JStr (label p))
       (jsAnd (JBool (negb (String.eqb ty "checkbox")))
          (RElem "label"
             (jsxProps [Attr "className" (jsStr (style_label styles));
                        Attr "htmlFor" (jsStr (name p))])
             [RJs (optional JStr (label p))]));
     input;
     jsAnd (JBool hasError)
       (RElem "p" (jsxProps [Attr "className" (jsStr (style_error styles))])
          [RJs (JStr (errorText error))])].

(** [showWhen ? showWhen(values) : true] *)
Definition shouldRender (p : FieldProps) (values : gmap string JsValue) : bool :=
  match showWhen p with Some pred => pred values | None => true end.

(** The [Field] component. *)
Definition Field (p : FieldProps) : Render ReactNode :=
  let ty := default "text" (type p) in
  values ← useWatch;
  if negb (shouldRender p values) then mret (RJs JNull) else
  errors ← useErrors;
  let error := errors !! name p in
  let hasError := bool_decide (is_Some error) in
  input ← inputElement p ty values hasError;
  mret (wrapper p ty error hasError input).

End UseSmartForm.

(** ** The [Form] wrapper *)

Section Form.

Variable cn : list ClassValue → string.
Variable World : Type.

(** The argument of [useSmartForm].  A schema is what its resolver does
    with the attempted values: accept them, coerced, or reject them with
    errors. *)
Record HookProps := {
  schema : gmap string JsValue → gmap string JsValue + gmap string FieldError;
  onSubmit : option (gmap string JsValue → World → World);
  defaultValues : option (gmap string JsValue)
}.

(** [useForm({ resolver, defaultValues: props.defaultValues || {} })] *)
Definition useForm (props : HookProps) : FormState :=
  {| values := default ∅ (defaultValues props); errors := ∅; fields := ∅ |}.

(** [<FormProvider {...methods}><form onSubmit=.. className=..>{children}</form></FormProvider>] *)
Record FormElement := {
  form_onSubmit : FormState → World → FormState * World;
  form_className : string;
  form_children : list ReactNode
}.

(** [() => {}] *)
Definition noop : gmap string JsValue → World → World := λ _ w, w.

Definition Form (props : HookProps) (children : list ReactNode)
    (className : option string) : FormElement :=
  {| form_onSubmit :=
       Engine.handleSubmit (schema props)
         (match onSubmit props with Some f => f | None => noop end);
     form_className := cn [CStr ""; classArg className];
     form_children := children |}.

End Form.

Arguments schema {World} _.
Arguments onSubmit {World} _.
Arguments defaultValues {World} _.
Arguments form_onSubmit {World} _.
Arguments noop {World}.

(** A callback that does nothing but log the argument of each call. *)
Definition logCall : gmap string JsValue → list (gmap string JsValue) → list (gmap string JsValue) :=
  λ v log, (log ++ [v])%list.

(** ** Events on the rendered markup *)

(** The slots of the wrapper that [Field] returns: label, input, error. *)
Definition inputSlot (out : ReactNode) : option ReactNode :=
  match out with RElem _ _ [_; input; _] => Some input | _ => None end.

Definition errorSlot (out : ReactNode) : option ReactNode :=
  match out with RElem _ _ [_; _; err] => Some err | _ => None end.

Definition tagOf (n : ReactNode) : option string :=
  match n with RElem tag _ _ => Some tag | RJs _ => None end.

Definition childrenOf (n : ReactNode) : list ReactNode :=
  match n with RElem _ _ children => children | RJs _ => [] end.

(** The native controls of a markup tree: the props of every [input],
    [textarea] and [select] element in it, in document order. *)
Definition isControl (tag : string) : bool :=
  String.eqb tag "input" || String.eqb tag "textarea" || String.eqb tag "select".

Fixpoint controls (n : ReactNode) : list (gmap string PropValue) :=
  match n with
  | RJs _ => []
  | RElem tag props children =>
      ((if isControl tag then [props] else []) ++
       (fix go (l : list ReactNode) : list (gmap string PropValue) :=
          match l with
          | [] => []
          | c :: l' => controls c ++ go l'
          end) children)%list
  end.

(** A control is classed as the component classes its controls: [cn(base, hasError &&
    "border-red-500", className)] for the base style of its arm. *)
Definition classedBy (cn : list ClassValue → string) (hasError : bool)
    (className : option string) (props : gmap string PropValue) : Prop :=
  ∃ base, props !! "className"
          = Some (PJs (JStr (cn [CStr base; errorClass hasError; classArg className]))).

(** A native change event on the control in the input slot: React calls the
    [onChange] prop of the element, if it has one.  There is no event
    without an element. *)
Definition change (out : ReactNode) (e : ChangeEvent) (st : FormState) : option FormState :=
  match inputSlot out with
  | Some (RElem _ props _) =>
      Some (match props !! "onChange" with
            | Some (PHandler h) => h e st
            | _ => st
            end)
  | _ => None
  end.

(** ** Further readers of the markup *)

(** The first slot of the wrapper: the label. *)
Definition labelSlot (out : ReactNode) : option ReactNode :=
  match out with RElem _ _ [l; _; _] => Some l | _ => None end.

(** A prop of an element. *)
Definition propOf (k : string) (n : ReactNode) : option PropValue :=
  match n with RElem _ props _ => props !! k | RJs _ => None end.

(** The child that follows the [<input>] in the [<div>] of a [range] field. *)
Definition auxSlot (out : ReactNode) : option ReactNode :=
  slot ← inputSlot out; childrenOf slot !! 1%nat.

(** The control of a field: the first native control in the input slot
    (the slot itself for an [<input>], the input inside the [<div>] of a
    [range] or [checkbox] field). *)
Definition controlOf (out : ReactNode) : option (gmap string PropValue) :=
  slot ← inputSlot out; head (controls slot).

(** A native event on the control of a field: React calls the handler the
    control has under that prop ([onChange], [onBlur]), if it has one.
    There is no event without a control. *)
Definition fire (handler : string) (out : ReactNode) (e : ChangeEvent)
    (st : FormState) : option FormState :=
  props ← controlOf out;
  Some (match props !! handler with
        | Some (PHandler h) => h e st
        | _ => st
        end).


(** ** The earlier version of the file

    The repository also holds the previous version of [useSmartForm.ts]
    (no [password] and [tel], no [multiple]).  Its [file] case has this
    [onChange]:
<<
    const file = e.target.files?.[0];
    if (file) {
      methods.setValue?.(name, file as any);
    }
>> *)
Definition fileOnChange_legacy (name : string) : Handler :=
  λ e st,
    let file := optional JFile (target_files e ≫= head) in
    if truthy file then Engine.setValue name file st else st.

(** ** Concrete data for the examples *)

Module Samples.

(** A [cn] that joins the class strings it is given with spaces. *)
Definition clsx (args : list ClassValue) : string :=
  foldr (λ a acc, match a with
                  | CStr s => if String.eqb acc "" then s else s +:+ " " +:+ acc
                  | _ => acc
                  end) "" args.

Definition styles : Styles :=
  {| style_input := "input"; style_checkbox := "checkbox";
     style_checkboxLabel := "checkbox-label"; style_textarea := "textarea";
     style_select := "select"; style_selectValue := "select-value";
     style_range := "range"; style_radio := "radio";
     style_label := "label"; style_error := "error" |}.

Definition field (n : string) (ty : string) : FieldProps :=
  {| name := n; label := None; checkBoxLabel := None; type := Some ty;
     options := None; showWhen := None; className := None;
     displayValue := None; rest := ∅ |}.

Definition with_rest (r : gmap string PropValue) (p : FieldProps) : FieldProps :=
  {| name := name p; label := label p; checkBoxLabel := checkBoxLabel p;
     type := type p; options := options p; showWhen := showWhen p;
     className := className p; displayValue := displayValue p; rest := r |}.

Definition with_options (o : list string) (p : FieldProps) : FieldProps :=
  {| name := name p; label := label p; checkBoxLabel := checkBoxLabel p;
     type := type p; options := Some o; showWhen := showWhen p;
     className := className p; displayValue := displayValue p; rest := rest p |}.

Definition with_label (l : string) (p : FieldProps) : FieldProps :=
  {| name := name p; label := Some l; checkBoxLabel := checkBoxLabel p;
     type := type p; options := options p; showWhen := showWhen p;
     className := className p; displayValue := displayValue p; rest := rest p |}.

Definition with_showWhen (f : gmap string JsValue → bool) (p : FieldProps) : FieldProps :=
  {| name := name p; label := label p; checkBoxLabel := checkBoxLabel p;
     type := type p; options := options p; showWhen := Some f;
     className := className p; displayValue := displayValue p; rest := rest p |}.

(** [values => values.isStudent] *)
Definition isStudent (values : gmap string JsValue) : bool :=
  truthy (default JUndefined (values !! "isStudent")).

Definition empty : FormState := {| values := ∅; errors := ∅; fields := ∅ |}.

Definition required : FieldError :=
  {| error_type := "too_small"; message := Some "Name is required" |}.

Definition photo : File := {| file_name := "photo.png"; file_size := 1024 |}.
Definition scan : File := {| file_name := "scan.pdf"; file_size := 2048 |}.

Definition selecting (fs : list File) : ChangeEvent :=
  {| target_value := ""; target_files := Some fs |}.

Definition typing (s : string) : ChangeEvent :=
  {| target_value := s; target_files := None |}.

(** A consumer's own [onChange], which leaves the form alone. *)
Definition ownOnChange : Handler := λ _ st, st.

(** A schema that requires a non-empty [name] and accepts the values as
    they are. *)
Definition nameRequired (values : gmap string JsValue)
    : gmap string JsValue + gmap string FieldError :=
  if truthy (default JUndefined (values !! "name")) then inl values
  else inr {[ "name" := required ]}.

Definition logging : HookProps (list (gmap string JsValue)) :=
  {| schema := nameRequired; onSubmit := Some logCall; defaultValues := None |}.

Definition named (s : string) : FormState :=
  {| values := {[ "name" := JStr s ]}; errors := ∅; fields := ∅ |}.

End Samples.

Module MoreSamples.

Definition cv : File := {| file_name := "cv.pdf"; file_size := 4096 |}.

(** [<Field name="volume" type="range" displayValue />] *)
Definition volume : FieldProps :=
  {| name := "volume"; label := Some "Volume"; checkBoxLabel := None;
     type := Some "range"; options := None; showWhen := None;
     className := None; displayValue := Some true; rest := ∅ |}.

(** [<Field name="mood" label="Select your mood" type="select" options={["Happy", "Sad"]} />] *)
Definition mood : FieldProps :=
  {| name := "mood"; label := Some "Select your mood"; checkBoxLabel := None;
     type := Some "select"; options := Some ["Happy"; "Sad"]; showWhen := None;
     className := None; displayValue := None; rest := ∅ |}.

(** [<Field name="plan" type="radio" options={["Free", "Pro"]} />] *)
Definition plan : FieldProps :=
  {| name := "plan"; label := None; checkBoxLabel := None;
     type := Some "radio"; options := Some ["Free"; "Pro"]; showWhen := None;
     className := None; displayValue := None; rest := ∅ |}.

(** [<Field name="isStudent" type="checkbox" label="Student" checkBoxLabel="Are you a student" />] *)
Definition student : FieldProps :=
  {| name := "isStudent"; label := Some "Student";
     checkBoxLabel := Some "Are you a student";
     type := Some "checkbox"; options := None; showWhen := None;
     className := None; displayValue := None; rest := ∅ |}.

(** [<Field name="email" label="Email Address" type="email" placeholder="Enter Email Address" />] *)
Definition email : FieldProps :=
  {| name := "email"; label := Some "Email Address"; checkBoxLabel := None;
     type := Some "email"; options := None; showWhen := None;
     className := None; displayValue := None;
     rest := {[ "placeholder" := PJs (JStr "Enter Email Address") ]} |}.

(** [<Field name="papers" type="file" multiple />] *)
Definition papers : FieldProps :=
  Samples.with_rest {[ "multiple" := PJs (JBool true) ]} (Samples.field "papers" "file").

(** [<Field name="age" type="number" onChange={..} onBlur={..} />], with
    handlers of the consumer that leave the form alone. *)
Definition age : FieldProps :=
  Samples.with_rest {[ "onChange" := PHandler Samples.ownOnChange;
                       "onBlur" := PHandler Samples.ownOnChange ]}
    (Samples.field "age" "number").

Definition silent : HookProps (list (gmap string JsValue)) :=
  {| schema := Samples.nameRequired; onSubmit := None; defaultValues := None |}.

End MoreSamples.

(** * Properties *)

(** ** How [Field] unfolds *)

Section FieldFacts.

Variable cn : list ClassValue → string.
Variable styles : Styles.

Lemma Field_hidden p st :
  shouldRender p (values st) = false →
  Field cn styles p st = (RJs JNull, st).
Proof.
  intros Hs. unfold Field, useWatch, mbind, Render_bind. simpl.
  rewrite Hs. reflexivity.
Qed.

Lemma Field_shown p st :
  shouldRender p (values st) = true →
  Field cn styles p st =
    let ty := default "text" (type p) in
    let error := errors st !! name p in
    let hasError := bool_decide (is_Some error) in
    let '(input, st') := inputElement cn styles p ty (values st) hasError st in
    (wrapper styles p ty error hasError input, st').
Proof.
  intros Hs. unfold Field, useWatch, useErrors, mbind, Render_bind. simpl.
  rewrite Hs. simpl. destruct (inputElement _ _ _ _ _ _ _); reflexivity.
Qed.

Lemma renders_wrapper p ty error hasError input :
  renders (wrapper styles p ty error hasError input) = true.
Proof. reflexivity. Qed.

End FieldFacts.

(** ** Visibility *)

(** C1.  Whether [Field] puts anything in the document is decided by
    [showWhen] alone: without a predicate the field always renders; with a
    predicate it renders exactly when the predicate holds of the watched
    values, and the component returns [null] when it does not. *)
Theorem Field_presence cn styles p st :
  let out := (Field cn styles p st).1 in
  (showWhen p = None → renders out = true) ∧
  (∀ pred, showWhen p = Some pred → renders out = pred (values st)) ∧
  (∀ pred, showWhen p = Some pred → pred (values st) = false → out = RJs JNull).
Proof.
  simpl. split; [|split].
  - intros Hn. rewrite Field_shown by (unfold shouldRender; by rewrite Hn).
    simpl. by destruct (inputElement _ _ _ _ _ _ _).
  - intros pred Hp. destruct (pred (values st)) eqn:Hv.
    + rewrite Field_shown by (unfold shouldRender; by rewrite Hp).
      simpl. by destruct (inputElement _ _ _ _ _ _ _).
    + rewrite Field_hidden by (unfold shouldRender; by rewrite Hp). done.
  - intros pred Hp Hv.
    rewrite Field_hidden by (unfold shouldRender; by rewrite Hp). done.
Qed.

Lemma Field_presence_witness :
  renders (Field Samples.clsx Samples.styles (Samples.field "name" "text") Samples.empty).1 = true
  ∧ renders (Field Samples.clsx Samples.styles
               (Samples.with_showWhen Samples.isStudent (Samples.field "school" "text"))
               Samples.empty).1 = Samples.isStudent ∅
  ∧ (Field Samples.clsx Samples.styles
       (Samples.with_showWhen Samples.isStudent (Samples.field "school" "text"))
       Samples.empty).1 = RJs JNull.
Proof.
  split; [|split].
  - apply (Field_presence Samples.clsx Samples.styles
             (Samples.field "name" "text") Samples.empty). reflexivity.
  - apply (Field_presence Samples.clsx Samples.styles
             (Samples.with_showWhen Samples.isStudent (Samples.field "school" "text"))
             Samples.empty). reflexivity.
  - apply (Field_presence Samples.clsx Samples.styles
             (Samples.with_showWhen Samples.isStudent (Samples.field "school" "text"))
             Samples.empty) with (pred := Samples.isStudent); reflexivity.
Defined.

(** C9.  When [showWhen] is supplied and is false of the watched values,
    [Field] returns [null], with no label and no error text, whatever the
    error map holds: the return precedes the error lookup and the type
    dispatch, so that the field is not even bound to the engine. *)
Theorem Field_hidden_outputs_nothing cn styles p st pred errs :
  showWhen p = Some pred →
  pred (values st) = false →
  Field cn styles p (set_errors errs st) = (RJs JNull, set_errors errs st)
  ∧ renders (Field cn styles p (set_errors errs st)).1 = false.
Proof.
  intros Hp Hv.
  assert (Hs : shouldRender p (values (set_errors errs st)) = false)
    by (unfold shouldRender; rewrite Hp; exact Hv).
  rewrite (Field_hidden cn styles p _ Hs). split; reflexivity.
Qed.

Lemma Field_hidden_outputs_nothing_witness :
  Field Samples.clsx Samples.styles
    (Samples.with_label "School"
       (Samples.with_showWhen Samples.isStudent (Samples.field "school" "text")))
    (set_errors {[ "school" := Samples.required ]} Samples.empty)
  = (RJs JNull, set_errors {[ "school" := Samples.required ]} Samples.empty)
  ∧ renders (Field Samples.clsx Samples.styles
       (Samples.with_label "School"
          (Samples.with_showWhen Samples.isStudent (Samples.field "school" "text")))
       (set_errors {[ "school" := Samples.required ]} Samples.empty)).1 = false.
Proof.
  apply (Field_hidden_outputs_nothing Samples.clsx Samples.styles
           (Samples.with_label "School"
              (Samples.with_showWhen Samples.isStudent (Samples.field "school" "text")))
           Samples.empty Samples.isStudent {[ "school" := Samples.required ]});
    reflexivity.
Defined.

(** ** Submission *)

(** C2.  Submitting the form runs the handler that [Form] puts on the
    [<form>].  When the schema rejects the current values, no callback runs:
    the state of the caller is what it was, and so are the form values;
    nothing is raised.  When the schema accepts, the state of the caller is
    the one that a single call of [onSubmit] on the coerced values
    produces. *)
Theorem Form_submit cn World (props : HookProps World) children className st w :
  let submit := form_onSubmit (Form cn World props children className) in
  (∀ errs, schema props (values st) = inr errs →
     (submit st w).2 = w ∧ values (submit st w).1 = values st)
  ∧ (∀ coerced cb, schema props (values st) = inl coerced →
       onSubmit props = Some cb →
       (submit st w).2 = cb coerced w ∧ values (submit st w).1 = values st).
Proof.
  simpl. unfold Engine.handleSubmit. split.
  - intros errs ->. split; reflexivity.
  - intros coerced cb -> ->. split; reflexivity.
Qed.

(** With a callback that logs its calls: the log of a rejected submission
    is empty, the log of an accepted one holds the coerced values, once. *)
Lemma Form_submit_witness :
  (form_onSubmit (Form Samples.clsx _ Samples.logging [] None) (Samples.named "") []).2 = []
  ∧ (form_onSubmit (Form Samples.clsx _ Samples.logging [] None) (Samples.named "Ada") []).2
    = [ {[ "name" := JStr "Ada" ]} ].
Proof.
  split.
  - apply (Form_submit Samples.clsx _ Samples.logging [] None (Samples.named "") [])
      with (errs := {[ "name" := Samples.required ]}).
    vm_compute. reflexivity.
  - apply (Form_submit Samples.clsx _ Samples.logging [] None (Samples.named "Ada") [])
      with (coerced := {[ "name" := JStr "Ada" ]}) (cb := logCall).
    + vm_compute. reflexivity.
    + reflexivity.
Defined.

(** ** Fields without a control *)

Lemma fieldType_unmatched ty : ty ∉ fieldTypes → fieldType ty = None.
Proof.
  intros Hty. unfold fieldType.
  repeat match goal with
  | |- context [String.eqb ty ?s] =>
      destruct (String.eqb_spec ty s) as [->|_];
      [exfalso; apply Hty; apply list_elem_of_In; simpl; tauto|]
  end.
  reflexivity.
Qed.

(** The component on a field whose [switch] arm leaves [inputElement] null. *)
Lemma Field_without_control cn styles p st :
  (∀ hasError, inputElement cn styles p (default "text" (type p)) (values st) hasError st
               = (RJs JNull, st)) →
  Field cn styles p st =
    (if shouldRender p (values st)
     then wrapper styles p (default "text" (type p)) (errors st !! name p)
            (bool_decide (is_Some (errors st !! name p))) (RJs JNull)
     else RJs JNull, st).
Proof.
  intros Hin. destruct (shouldRender p (values st)) eqn:Hs.
  - rewrite Field_shown by done. simpl. by rewrite Hin.
  - by rewrite Field_hidden.
Qed.

(** C3, as the code has it.  A [select] or [radio] field whose [options]
    are absent gets no control: [Field] returns the wrapper, with the label
    and the error text, around a null input slot (or [null] when the field
    is hidden), and binds nothing.  An empty array is not absent: the
    [select] is rendered with its placeholder option alone, the radio group
    as an empty container. *)
Theorem choice_without_options cn styles p st ty :
  type p = Some ty →
  ty = "select" ∨ ty = "radio" →
  (options p = None →
     Field cn styles p st =
       (if shouldRender p (values st)
        then wrapper styles p ty (errors st !! name p)
               (bool_decide (is_Some (errors st !! name p))) (RJs JNull)
        else RJs JNull, st))
  ∧ (options p = Some [] → shouldRender p (values st) = true →
       ∃ input, inputSlot (Field cn styles p st).1 = Some input ∧
         tagOf input = Some (if String.eqb ty "select" then "select" else "div") ∧
         length (childrenOf input) = (if String.eqb ty "select" then 1 else 0)).
Proof.
  intros Hty Hsel. split.
  - intros Hopt.
    rewrite (Field_without_control cn styles p st); rewrite Hty; simpl; [done|].
    intros hasError. unfold inputElement. rewrite Hopt.
    by destruct Hsel as [-> | ->].
  - intros Hopt Hs. rewrite Field_shown by done. rewrite Hty. simpl.
    unfold inputElement. rewrite Hopt.
    destruct Hsel as [-> | ->]; simpl; eexists; (split; [reflexivity|]); done.
Qed.

Lemma choice_without_options_witness :
  Field Samples.clsx Samples.styles (Samples.field "mood" "select") Samples.empty
  = (wrapper Samples.styles (Samples.field "mood" "select") "select" None false (RJs JNull),
     Samples.empty)
  ∧ ∃ input,
      inputSlot (Field Samples.clsx Samples.styles
                   (Samples.with_options [] (Samples.field "plan" "radio")) Samples.empty).1
      = Some input
      ∧ tagOf input = Some "div" ∧ length (childrenOf input) = 0.
Proof.
  split.
  - apply (choice_without_options Samples.clsx Samples.styles
             (Samples.field "mood" "select") Samples.empty "select");
      [reflexivity | by left | reflexivity].
  - apply (choice_without_options Samples.clsx Samples.styles
             (Samples.with_options [] (Samples.field "plan" "radio")) Samples.empty "radio");
      [reflexivity | by right | reflexivity | reflexivity].
Defined.

(** C3, as the claim has it, fails: with [options = []] the field renders,
    and what it renders includes the [<select>] itself. *)
Lemma select_with_empty_options_renders :
  let p := Samples.with_options [] (Samples.field "mood" "select") in
  let out := (Field Samples.clsx Samples.styles p Samples.empty).1 in
  options p = Some []
  ∧ renders out = true
  ∧ (tagOf <$> inputSlot out) = Some (Some "select")
  ∧ (renders <$> inputSlot out) = Some true.
Proof. vm_compute. repeat split; reflexivity. Qed.

(** C4, as the code has it.  A field whose [type] is none of the variants
    gets no control and raises nothing: [Field] returns the wrapper, with
    the label and the error text, around a null input slot (or [null] when
    the field is hidden), and binds nothing. *)
Theorem unmatched_type_has_no_control cn styles p st ty :
  type p = Some ty →
  ty ∉ fieldTypes →
  Field cn styles p st =
    (if shouldRender p (values st)
     then wrapper styles p ty (errors st !! name p)
            (bool_decide (is_Some (errors st !! name p))) (RJs JNull)
     else RJs JNull, st).
Proof.
  intros Hty Hun.
  rewrite (Field_without_control cn styles p st); rewrite Hty; simpl; [done|].
  intros hasError. unfold inputElement. by rewrite (fieldType_unmatched ty Hun).
Qed.

Lemma unmatched_type_has_no_control_witness :
  Field Samples.clsx Samples.styles
    (Samples.with_label "Shade" (Samples.field "shade" "color")) Samples.empty
  = (wrapper Samples.styles (Samples.with_label "Shade" (Samples.field "shade" "color"))
       "color" None false (RJs JNull),
     Samples.empty).
Proof.
  apply (unmatched_type_has_no_control Samples.clsx Samples.styles
           (Samples.with_label "Shade" (Samples.field "shade" "color")) Samples.empty "color").
  - reflexivity.
  - intros Hin. apply list_elem_of_In in Hin. simpl in Hin.
    repeat (destruct Hin as [Hin|Hin]; [discriminate Hin|]). exact Hin.
Defined.

(** C4, as the claim has it, fails: a field of the unmatched type ["color"]
    still yields markup, the wrapper with its label. *)
Lemma unmatched_type_still_renders :
  let p := Samples.with_label "Shade" (Samples.field "shade" "color") in
  let out := (Field Samples.clsx Samples.styles p Samples.empty).1 in
  fieldType "color" = None
  ∧ renders out = true
  ∧ tagOf out = Some "div"
  ∧ (tagOf <$> head (childrenOf out)) = Some (Some "label").
Proof. vm_compute. repeat split; reflexivity. Qed.

(** ** File inputs *)

Section FileFacts.

Variable cn : list ClassValue → string.
Variable styles : Styles.

(** The [file] arm binds nothing and yields the [<input>] itself. *)
Lemma Field_file p st :
  type p = Some "file" →
  shouldRender p (values st) = true →
  ∃ props,
    Field cn styles p st =
      (wrapper styles p "file" (errors st !! name p)
         (bool_decide (is_Some (errors st !! name p))) (RElem "input" props []), st)
    ∧ props !! "onChange" =
        Some (default (PHandler (fileOnChange (name p) (rest p))) (rest p !! "onChange")).
Proof.
  intros Hty Hs. rewrite Field_shown by done. rewrite Hty. simpl.
  eexists. split; [reflexivity|].
  unfold jsxProps. simpl.
  rewrite lookup_insert_ne by done.
  destruct (rest p !! "onChange") as [v|] eqn:Hr; simpl.
  - by apply lookup_union_Some_l.
  - rewrite lookup_union_r by done. by rewrite lookup_insert_eq.
Qed.

(** A change event on a file field whose passthrough attributes carry no
    [onChange] runs the closure of the [file] arm. *)
Lemma change_file p st e :
  type p = Some "file" →
  shouldRender p (values st) = true →
  rest p !! "onChange" = None →
  (Field cn styles p st).2 = st
  ∧ change (Field cn styles p st).1 e st = Some (fileOnChange (name p) (rest p) e st).
Proof.
  intros Hty Hs Hr. destruct (Field_file p st Hty Hs) as (props & -> & Hp).
  rewrite Hr in Hp. simpl in Hp. split; [done|].
  unfold change. simpl. by rewrite Hp.
Qed.

(** When they do carry one, it is the one that runs. *)
Lemma change_file_overridden p st e h :
  type p = Some "file" →
  shouldRender p (values st) = true →
  rest p !! "onChange" = Some (PHandler h) →
  change (Field cn styles p st).1 e st = Some (h e st).
Proof.
  intros Hty Hs Hr. destruct (Field_file p st Hty Hs) as (props & -> & Hp).
  rewrite Hr in Hp. simpl in Hp. unfold change. simpl. by rewrite Hp.
Qed.

End FileFacts.

Lemma setValue_lookup n v st : values (Engine.setValue n v st) !! n = Some v.
Proof. unfold Engine.setValue. simpl. apply lookup_insert_eq. Qed.

(** C6, as the code has it.  On a rendered file field whose passthrough
    attributes do not supply an [onChange] of their own, a change event
    writes through the explicit setter, and the field is never bound with
    [register]: without [multiple], one selected file is stored as that
    file object under the name of the field; with [multiple], two selected
    files are stored as the array of the two, in order. *)
Theorem file_change_stores_files cn styles p st e :
  type p = Some "file" →
  shouldRender p (values st) = true →
  rest p !! "onChange" = None →
  let out := (Field cn styles p st).1 in
  (Field cn styles p st).2 = st
  ∧ (∀ f, truthyProp (getProp (rest p) "multiple") = false →
          target_files e = Some [f] →
          change out e st = Some (Engine.setValue (name p) (JFile f) st)
          ∧ values (Engine.setValue (name p) (JFile f) st) !! name p = Some (JFile f))
  ∧ (∀ f1 f2, truthyProp (getProp (rest p) "multiple") = true →
          target_files e = Some [f1; f2] →
          change out e st = Some (Engine.setValue (name p) (JArr [JFile f1; JFile f2]) st)
          ∧ values (Engine.setValue (name p) (JArr [JFile f1; JFile f2]) st) !! name p
            = Some (JArr [JFile f1; JFile f2])).
Proof.
  intros Hty Hs Hr. simpl.
  destruct (change_file cn styles p st e Hty Hs Hr) as [Hst Hch].
  split; [exact Hst|]. split.
  - intros f Hm Hf. split; [|apply setValue_lookup].
    rewrite Hch. unfold fileOnChange. rewrite Hm, Hf. reflexivity.
  - intros f1 f2 Hm Hf. split; [|apply setValue_lookup].
    rewrite Hch. unfold fileOnChange. rewrite Hm, Hf. reflexivity.
Qed.

Lemma file_change_stores_files_witness :
  (values <$> change (Field Samples.clsx Samples.styles (Samples.field "avatar" "file")
                        Samples.empty).1
                (Samples.selecting [Samples.photo]) Samples.empty)
  = Some {[ "avatar" := JFile Samples.photo ]}
  ∧ (values <$> change (Field Samples.clsx Samples.styles
                          (Samples.with_rest {[ "multiple" := PJs (JBool true) ]}
                             (Samples.field "papers" "file"))
                          Samples.empty).1
                  (Samples.selecting [Samples.photo; Samples.scan]) Samples.empty)
    = Some {[ "papers" := JArr [JFile Samples.photo; JFile Samples.scan] ]}.
Proof.
  split.
  - pose proof (file_change_stores_files Samples.clsx Samples.styles
                  (Samples.field "avatar" "file") Samples.empty
                  (Samples.selecting [Samples.photo])
                  eq_refl eq_refl eq_refl) as (_ & Hone & _).
    destruct (Hone Samples.photo eq_refl eq_refl) as [-> _]. reflexivity.
  - pose proof (file_change_stores_files Samples.clsx Samples.styles
                  (Samples.with_rest {[ "multiple" := PJs (JBool true) ]}
                     (Samples.field "papers" "file"))
                  Samples.empty
                  (Samples.selecting [Samples.photo; Samples.scan])
                  eq_refl eq_refl eq_refl) as (_ & _ & Htwo).
    destruct (Htwo Samples.photo Samples.scan eq_refl eq_refl) as [-> _]. reflexivity.
Defined.

(** C6, as the claim has it, fails: a file field that is given an
    [onChange] among its passthrough attributes has the closure of the
    component replaced by it, and a change event with one selected file
    stores nothing. *)
Lemma file_change_overridden_stores_nothing :
  let p := Samples.with_rest {[ "onChange" := PHandler Samples.ownOnChange ]}
             (Samples.field "avatar" "file") in
  let out := (Field Samples.clsx Samples.styles p Samples.empty).1 in
  type p = Some "file"
  ∧ ((λ st, values st !! "avatar") <$>
       change out (Samples.selecting [Samples.photo]) Samples.empty) = Some None.
Proof. vm_compute. split; reflexivity. Qed.

(** C10, as the code has it.  On a rendered file field without [multiple]
    whose passthrough attributes do not supply an [onChange] of their own, a
    change event with no file selected (an empty FileList, or none) writes
    [null] under the name of the field, whatever was stored there before. *)
Theorem file_change_clears cn styles p st e :
  type p = Some "file" →
  shouldRender p (values st) = true →
  rest p !! "onChange" = None →
  truthyProp (getProp (rest p) "multiple") = false →
  target_files e = Some [] ∨ target_files e = None →
  change (Field cn styles p st).1 e st = Some (Engine.setValue (name p) JNull st)
  ∧ values (Engine.setValue (name p) JNull st) !! name p = Some JNull.
Proof.
  intros Hty Hs Hr Hm Hf. split; [|apply setValue_lookup].
  destruct (change_file cn styles p st e Hty Hs Hr) as [_ ->].
  unfold fileOnChange. rewrite Hm. by destruct Hf as [-> | ->].
Qed.

Lemma file_change_clears_witness :
  ((λ st, values st !! "avatar") <$>
     change (Field Samples.clsx Samples.styles (Samples.field "avatar" "file")
               (Engine.setValue "avatar" (JFile Samples.photo) Samples.empty)).1
       (Samples.selecting [])
       (Engine.setValue "avatar" (JFile Samples.photo) Samples.empty))
  = Some (Some JNull).
Proof.
  destruct (file_change_clears Samples.clsx Samples.styles
              (Samples.field "avatar" "file")
              (Engine.setValue "avatar" (JFile Samples.photo) Samples.empty)
              (Samples.selecting [])
              eq_refl eq_refl eq_refl eq_refl (or_introl eq_refl)) as [-> _].
  reflexivity.
Defined.

(** C10, as the claim has it, fails: with an [onChange] among the
    passthrough attributes, a change event with no file selected leaves the
    stored file where it was. *)
Lemma file_change_overridden_keeps_value :
  let p := Samples.with_rest {[ "onChange" := PHandler Samples.ownOnChange ]}
             (Samples.field "avatar" "file") in
  let st := Engine.setValue "avatar" (JFile Samples.photo) Samples.empty in
  let out := (Field Samples.clsx Samples.styles p st).1 in
  truthyProp (getProp (rest p) "multiple") = false
  ∧ ((λ st', values st' !! "avatar") <$> change out (Samples.selecting []) st)
    = Some (Some (JFile Samples.photo)).
Proof. vm_compute. split; reflexivity. Qed.

(** ** What a render does to the engine *)

Lemma set_fields_insert_twice n o st :
  set_fields (<[n := o]>) (set_fields (<[n := o]>) st) = set_fields (<[n := o]>) st.
Proof. unfold set_fields. simpl. by rewrite insert_insert_eq. Qed.

(** Mapping a render that always yields the same state change. *)
Lemma mapM_Render {A B} (f : A → Render B) (g : A → B) (F : FormState → FormState) l st :
  (∀ a st, f a st = (g a, F st)) →
  (∀ st, F (F st) = F st) →
  mapM f l st = (map g l, match l with [] => st | _ => F st end).
Proof.
  intros Hf HF. revert st. induction l as [|a l IH]; intros st; [reflexivity|].
  simpl. unfold mbind, Render_bind. rewrite Hf, IH. simpl.
  destruct l; [reflexivity|]. by rewrite HF.
Qed.

Section RenderFacts.

Variable cn : list ClassValue → string.
Variable styles : Styles.

(** The markup of [inputElement] does not depend on the engine state it runs
    in, and all it does to that state is to bind the field, or nothing. *)
Lemma inputElement_effect p ty vs hasError :
  ∃ (m : ReactNode) (b : bool) (o : RegisterOptions), ∀ st,
    inputElement cn styles p ty vs hasError st
    = (m, if b then set_fields (<[name p := o]>) st else st).
Proof.
  unfold inputElement.
  destruct (fieldType ty) as [[]|];
    try (destruct (options p) as [opts|]);
    try (eexists _, true, _; intros st; reflexivity);
    try (eexists _, false, noOptions; intros st; reflexivity).
  destruct opts as [|opt opts].
  - eexists _, false, noOptions. intros st. reflexivity.
  - eexists _, true, noOptions. intros st.
    unfold mbind at 1, Render_bind at 1.
    erewrite mapM_Render;
      [reflexivity | intros; reflexivity | apply set_fields_insert_twice].
Qed.

Lemma Field_effect p vs es :
  ∃ (m : ReactNode) (b : bool) (o : RegisterOptions), ∀ st,
    values st = vs → errors st = es →
    Field cn styles p st = (m, if b then set_fields (<[name p := o]>) st else st).
Proof.
  destruct (shouldRender p vs) eqn:Hs.
  - destruct (inputElement_effect p (default "text" (type p)) vs
                (bool_decide (is_Some (es !! name p)))) as (m & b & o & Hin).
    exists (wrapper styles p (default "text" (type p)) (es !! name p)
              (bool_decide (is_Some (es !! name p))) m), b, o.
    intros st Hv He.
    rewrite Field_shown by (by rewrite Hv). simpl. rewrite Hv, He, Hin. reflexivity.
  - exists (RJs JNull), false, noOptions. intros st Hv He.
    rewrite Field_hidden by (by rewrite Hv). reflexivity.
Qed.

End RenderFacts.

(** ** Determinism *)

(** C8.  The markup that [Field] computes is a function of the descriptor,
    the watched values and the error map alone: two renders against engine
    states that agree on values and errors yield the same markup.  And
    rendering is idempotent: a second render, run against the state the
    first one left, yields the same markup and leaves that state as it is. *)
Theorem Field_deterministic cn styles p st1 st2 :
  values st1 = values st2 →
  errors st1 = errors st2 →
  (Field cn styles p st1).1 = (Field cn styles p st2).1
  ∧ Field cn styles p (Field cn styles p st1).2 = Field cn styles p st1.
Proof.
  intros Hv He.
  destruct (Field_effect cn styles p (values st1) (errors st1)) as (m & b & o & HF).
  rewrite (HF st1 eq_refl eq_refl), (HF st2 (eq_sym Hv) (eq_sym He)).
  split; [reflexivity|]. simpl.
  destruct b; [|apply HF; reflexivity].
  rewrite (HF (set_fields _ st1)) by reflexivity.
  by rewrite set_fields_insert_twice.
Qed.

Lemma Field_deterministic_witness :
  (Field Samples.clsx Samples.styles (Samples.field "age" "number") (Samples.named "Ada")).1
  = (Field Samples.clsx Samples.styles (Samples.field "age" "number")
       (set_fields (<[ "name" := noOptions ]>) (Samples.named "Ada"))).1
  ∧ Field Samples.clsx Samples.styles (Samples.field "age" "number")
      (Field Samples.clsx Samples.styles (Samples.field "age" "number") (Samples.named "Ada")).2
    = Field Samples.clsx Samples.styles (Samples.field "age" "number") (Samples.named "Ada").
Proof.
  apply (Field_deterministic Samples.clsx Samples.styles (Samples.field "age" "number")
           (Samples.named "Ada")
           (set_fields (<[ "name" := noOptions ]>) (Samples.named "Ada")));
    reflexivity.
Defined.

(** ** Error display *)

Lemma controls_RElem tag props children :
  controls (RElem tag props children)
  = ((if isControl tag then [props] else []) ++ concat (controls <$> children))%list.
Proof.
  simpl. f_equal. induction children as [|c l IH]; [reflexivity|].
  simpl. by rewrite IH.
Qed.

Lemma controls_childOf v : controls (childOf v) = [].
Proof. by destruct v. Qed.

Section ControlFacts.

Variable P : gmap string PropValue → Prop.

Lemma Forall_controls_control tag props children :
  isControl tag = true →
  P props →
  Forall (λ c, Forall P (controls c)) children →
  Forall P (controls (RElem tag props children)).
Proof.
  intros Ht Hp Hc. rewrite controls_RElem, Ht. apply Forall_app. split.
  - by constructor.
  - apply Forall_concat. by apply Forall_fmap.
Qed.

Lemma Forall_controls_container tag props children :
  isControl tag = false →
  Forall (λ c, Forall P (controls c)) children →
  Forall P (controls (RElem tag props children)).
Proof.
  intros Ht Hc. rewrite controls_RElem, Ht. simpl.
  apply Forall_concat. by apply Forall_fmap.
Qed.

Lemma Forall_controls_jsAnd c n :
  Forall P (controls n) → Forall P (controls (jsAnd c n)).
Proof. intros Hn. unfold jsAnd. destruct (truthy c); [done | constructor]. Qed.

End ControlFacts.

Section ErrorFacts.

Variable cn : list ClassValue → string.
Variable styles : Styles.

Lemma classedBy_last hasError className base attrs :
  classedBy cn hasError className
    (jsxProps (attrs ++ [Attr "className" (classOf cn base hasError className)])).
Proof.
  exists base. unfold jsxProps. rewrite foldl_app. simpl. apply lookup_insert_eq.
Qed.

Lemma classedBy_baseProps hasError className base before attrs :
  classedBy cn hasError className
    (jsxProps (before ++
       [Spread (jsxProps (attrs ++ [Attr "className" (classOf cn base hasError className)]))])).
Proof.
  destruct (classedBy_last hasError className base attrs) as [b Hb].
  exists b. unfold jsxProps at 1. rewrite foldl_app. simpl.
  by apply lookup_union_Some_l.
Qed.

Local Ltac leaf :=
  first
    [ apply (classedBy_last _ _ _ [_])
    | apply (classedBy_last _ _ _ [_; _])
    | apply (classedBy_last _ _ _ [_; _; _])
    | apply (classedBy_last _ _ _ [_; _; _; _])
    | apply (classedBy_last _ _ _ [_; _; _; _; _; _])
    | apply (classedBy_baseProps _ _ _ [_; _] [_; _]) ].

Local Ltac tree :=
  repeat match goal with
  | |- Forall _ [] => apply Forall_nil_2
  | |- Forall _ (_ :: _) => apply Forall_cons_2
  | |- Forall _ (controls (RJs _)) => apply Forall_nil_2
  | |- Forall _ (controls (jsAnd _ _)) => apply Forall_controls_jsAnd
  | |- Forall _ (controls (childOf _)) => rewrite controls_childOf
  | |- Forall _ (controls (RElem _ _ _)) =>
      first [ apply Forall_controls_control; [reflexivity | leaf |]
            | apply Forall_controls_container; [reflexivity |] ]
  end.

Lemma controls_inputElement p ty vs hasError st :
  Forall (classedBy cn hasError (className p))
    (controls (inputElement cn styles p ty vs hasError st).1).
Proof.
  unfold inputElement.
  destruct (fieldType ty) as [[]|]; try (destruct (options p) as [opts|]);
    try (unfold mbind at 1, Render_bind at 1;
         erewrite mapM_Render;
           [| intros; reflexivity | apply set_fields_insert_twice]);
    cbv beta iota zeta delta [mbind mret Render_bind Render_ret Engine.register fst];
    try (by tree).
  - (* select: the options are no controls *)
    apply Forall_controls_control; [reflexivity | leaf |].
    apply Forall_cons_2; [by tree|].
    apply Forall_fmap, Forall_true. intros opt. cbv beta delta [compose]. by tree.
  - (* radio: one input per option *)
    apply Forall_controls_container; [reflexivity|].
    apply Forall_fmap, Forall_true. intros opt. cbv beta delta [compose]. by tree.
Qed.

Lemma controls_wrapper p ty error hasError input :
  controls (wrapper styles p ty error hasError input) = controls input.
Proof.
  unfold wrapper. rewrite controls_RElem. simpl.
  assert (Hl : ∀ c1 c2 tag props v,
             controls (jsAnd c1 (jsAnd c2 (RElem "label" tag [RJs v]))) = [] ∧
             controls (jsAnd c1 (RElem "p" props [RJs v])) = []).
  { intros. unfold jsAnd. by destruct (truthy c1), (truthy c2). }
  destruct (Hl (optional JStr (label p)) (JBool (negb (String.eqb ty "checkbox")))
              (jsxProps [Attr "className" (jsStr (style_label styles));
                         Attr "htmlFor" (jsStr (name p))])
              (jsxProps [Attr "className" (jsStr (style_error styles))])
              (optional JStr (label p))) as [-> _].
  destruct (Hl (JBool hasError) JNull ∅
              (jsxProps [Attr "className" (jsStr (style_error styles))])
              (JStr (errorText error))) as [_ ->].
  simpl. by rewrite app_nil_r.
Qed.

End ErrorFacts.

(** C7.  On a rendered field: when the error map has an entry under the name
    of the field, the error slot is the paragraph styled with
    [styles.error] whose text is the message of the entry, or ["This field is
    required"] when the entry has none, and every control of the field has
    ["border-red-500"] among the arguments of its class; when the error map
    has no entry, the error slot is [false], which renders nothing, and no
    control receives the error class. *)
Theorem error_display cn styles p st :
  shouldRender p (values st) = true →
  let out := (Field cn styles p st).1 in
  (∀ err, errors st !! name p = Some err →
     errorSlot out
     = Some (RElem "p" (jsxProps [Attr "className" (jsStr (style_error styles))])
               [RJs (JStr (default "This field is required" (message err)))])
     ∧ Forall (λ props, ∃ base, props !! "className" =
                 Some (PJs (JStr (cn [CStr base; CStr "border-red-500";
                                      classArg (className p)]))))
         (controls out))
  ∧ (errors st !! name p = None →
     errorSlot out = Some (RJs (JBool false))
     ∧ Forall (λ props, ∃ base, props !! "className" =
                 Some (PJs (JStr (cn [CStr base; CFalse; classArg (className p)]))))
         (controls out)).
Proof.
  intros Hs. cbv zeta. rewrite Field_shown by done. cbv zeta.
  pose proof (controls_inputElement cn styles p (default "text" (type p)) (values st)
                (bool_decide (is_Some (errors st !! name p))) st) as Hc.
  destruct (inputElement _ _ _ _ _ _ _) as [input st']. cbn [fst] in *.
  rewrite controls_wrapper.
  split.
  - intros err Herr. rewrite Herr in *. split; [|exact Hc].
    unfold wrapper, errorSlot, errorText. simpl. by destruct (message err).
  - intros Herr. rewrite Herr in *. split; [reflexivity | exact Hc].
Qed.

Lemma error_display_witness :
  errorSlot (Field Samples.clsx Samples.styles (Samples.field "name" "text")
               (set_errors {[ "name" := Samples.required ]} Samples.empty)).1
  = Some (RElem "p" (jsxProps [Attr "className" (PJs (JStr "error"))])
            [RJs (JStr "Name is required")])
  ∧ errorSlot (Field Samples.clsx Samples.styles (Samples.field "name" "text")
                 Samples.empty).1
    = Some (RJs (JBool false)).
Proof.
  split.
  - destruct (error_display Samples.clsx Samples.styles (Samples.field "name" "text")
                (set_errors {[ "name" := Samples.required ]} Samples.empty) eq_refl)
      as [Hentry _].
    exact (proj1 (Hentry Samples.required eq_refl)).
  - destruct (error_display Samples.clsx Samples.styles (Samples.field "name" "text")
                Samples.empty eq_refl) as [_ Hnone].
    exact (proj1 (Hnone eq_refl)).
Defined.

(** ** Numeric fields *)

Lemma toNumber_42 : Engine.toNumber "42" = JNum 42.
Proof. vm_compute. reflexivity. Qed.

(** What the coercion does with other strings an input can be given. *)
Example toNumber_examples :
  Engine.toNumber <$> ["-5"; "4.5"; "1e3"; "1.50"; ".5"; " 7 "; "0x1F"; "";
                       " "; "12px"; "-Infinity"]
  = [JNum (-5); JDec 45 (-1); JNum 1000; JDec 15 (-1); JDec 5 (-1); JNum 7; JNum 31; JNaN;
     JNum 0; JNaN; JInfinity true].
Proof. vm_compute. reflexivity. Qed.

Section NumericFacts.

Variable cn : list ClassValue → string.
Variable styles : Styles.

(** The state a rendered [number] or [range] field leaves, and the handlers
    its control ends up with: those of [register], unless the passthrough
    attributes bring their own. *)
Lemma Field_numeric p st ty :
  type p = Some ty →
  ty = "number" ∨ ty = "range" →
  shouldRender p (values st) = true →
  (Field cn styles p st).2 = set_fields (<[name p := {| valueAsNumber := true |}]>) st
  ∧ ∃ props, controlOf (Field cn styles p st).1 = Some props
      ∧ props !! "onChange"
        = Some (default (PHandler (Engine.fieldChange (name p))) (rest p !! "onChange"))
      ∧ props !! "onBlur"
        = Some (default (PHandler (Engine.fieldChange (name p))) (rest p !! "onBlur")).
Proof.
  intros Hty Hnum Hs. rewrite Field_shown by done. rewrite Hty. cbv zeta.
  destruct Hnum as [-> | ->].
  - (* number: the input is the slot, with rest inside baseProps *)
    split; [reflexivity|]. eexists. split; [reflexivity|].
    unfold jsxProps, foldl.
    split.
    + destruct (rest p !! "onChange") as [v|] eqn:Hr; simpl.
      * apply lookup_union_Some_l. rewrite lookup_insert_ne by done.
        by apply lookup_union_Some_l.
      * rewrite lookup_union_r.
        2:{ rewrite lookup_insert_ne by done. by rewrite lookup_union_r. }
        apply lookup_union_Some_l. rewrite !lookup_insert_ne by done.
        by rewrite lookup_insert_eq.
    + destruct (rest p !! "onBlur") as [v|] eqn:Hr; simpl.
      * apply lookup_union_Some_l. rewrite lookup_insert_ne by done.
        by apply lookup_union_Some_l.
      * rewrite lookup_union_r.
        2:{ rewrite lookup_insert_ne by done. by rewrite lookup_union_r. }
        apply lookup_union_Some_l. rewrite !lookup_insert_ne by done.
        by rewrite lookup_insert_eq.
  - (* range: the input is the first child of the slot *)
    split; [reflexivity|].
    assert (Hc : ∀ props aux,
              controlOf (wrapper styles p "range" (errors st !! name p)
                           (bool_decide (is_Some (errors st !! name p)))
                           (RElem "div" ∅
                              [RElem "input" props [];
                               jsAnd (optional JBool (displayValue p))
                                 (RElem "div" aux
                                    [RJs (default JUndefined (values st !! name p))])]))
              = Some props).
    { intros props aux. unfold controlOf, wrapper, inputSlot, jsAnd.
      by destruct (truthy _). }
    eexists. split; [apply Hc|].
    unfold jsxProps, foldl.
    split.
    + rewrite lookup_insert_ne by done.
      destruct (rest p !! "onChange") as [v|] eqn:Hr; simpl.
      * by apply lookup_union_Some_l.
      * rewrite lookup_union_r by done.
        apply lookup_union_Some_l. rewrite !lookup_insert_ne by done.
        by rewrite lookup_insert_eq.
    + rewrite lookup_insert_ne by done.
      destruct (rest p !! "onBlur") as [v|] eqn:Hr; simpl.
      * by apply lookup_union_Some_l.
      * rewrite lookup_union_r by done.
        apply lookup_union_Some_l. rewrite !lookup_insert_ne by done.
        by rewrite lookup_insert_eq.
Qed.

(** What the handler of [register] stores for the native value ["42"] once
    the field is bound as a number. *)
Lemma fieldChange_42 n e st :
  target_value e = "42" →
  fields st !! n = Some {| valueAsNumber := true |} →
  values (Engine.fieldChange n e st) !! n = Some (JNum 42).
Proof.
  intros He Hf. unfold Engine.fieldChange, Engine.getFieldValueAs.
  rewrite Hf, He, toNumber_42. simpl. apply lookup_insert_eq.
Qed.

End NumericFacts.

(** C5, as the code has it.  A rendered field of type [number] or [range]
    is bound to the engine with [valueAsNumber: true].  When its passthrough
    attributes do not supply an [onChange] of their own, a change event on
    its input with the native value ["42"] stores the number [42] under the
    name of the field, not the string; and the same goes for a blur event
    when they do not supply an [onBlur]. *)
Theorem numeric_field_stores_number cn styles p st e ty :
  type p = Some ty →
  ty = "number" ∨ ty = "range" →
  shouldRender p (values st) = true →
  target_value e = "42" →
  let out := (Field cn styles p st).1 in
  let st' := (Field cn styles p st).2 in
  fields st' !! name p = Some {| valueAsNumber := true |}
  ∧ (rest p !! "onChange" = None →
     ∃ st'', fire "onChange" out e st' = Some st''
       ∧ values st'' !! name p = Some (JNum 42)
       ∧ values st'' !! name p ≠ Some (JStr "42"))
  ∧ (rest p !! "onBlur" = None →
     ∃ st'', fire "onBlur" out e st' = Some st''
       ∧ values st'' !! name p = Some (JNum 42)
       ∧ values st'' !! name p ≠ Some (JStr "42")).
Proof.
  intros Hty Hnum Hs He. cbv zeta.
  destruct (Field_numeric cn styles p st ty Hty Hnum Hs)
    as (Hst & props & Hc & Hchange & Hblur).
  assert (Hf : fields (Field cn styles p st).2 !! name p = Some {| valueAsNumber := true |})
    by (rewrite Hst; simpl; apply lookup_insert_eq).
  split; [exact Hf|].
  pose proof (fieldChange_42 (name p) e _ He Hf) as Hv.
  split; intros Hr; eexists; unfold fire; rewrite Hc; simpl.
  - rewrite Hchange, Hr. simpl. split; [reflexivity|].
    split; [exact Hv | rewrite Hv; discriminate].
  - rewrite Hblur, Hr. simpl. split; [reflexivity|].
    split; [exact Hv | rewrite Hv; discriminate].
Qed.

Lemma numeric_field_stores_number_witness :
  ((λ st, values st !! "age") <$>
     fire "onChange"
       (Field Samples.clsx Samples.styles (Samples.field "age" "number") Samples.empty).1
       (Samples.typing "42")
       (Field Samples.clsx Samples.styles (Samples.field "age" "number") Samples.empty).2)
  = Some (Some (JNum 42))
  ∧ ((λ st, values st !! "volume") <$>
       fire "onBlur"
         (Field Samples.clsx Samples.styles MoreSamples.volume Samples.empty).1
         (Samples.typing "42")
         (Field Samples.clsx Samples.styles MoreSamples.volume Samples.empty).2)
    = Some (Some (JNum 42)).
Proof.
  split.
  - destruct (numeric_field_stores_number Samples.clsx Samples.styles
                (Samples.field "age" "number") Samples.empty (Samples.typing "42") "number"
                eq_refl (or_introl eq_refl) eq_refl eq_refl) as (_ & Hchange & _).
    destruct (Hchange eq_refl) as (st'' & Hfire & Hv & _).
    rewrite Hfire. exact (f_equal Some Hv).
  - destruct (numeric_field_stores_number Samples.clsx Samples.styles
                MoreSamples.volume Samples.empty (Samples.typing "42") "range"
                eq_refl (or_intror eq_refl) eq_refl eq_refl) as (_ & _ & Hblur).
    destruct (Hblur eq_refl) as (st'' & Hfire & Hv & _).
    rewrite Hfire. exact (f_equal Some Hv).
Defined.

(** C5, as the claim has it, fails: a [number] field that is given an
    [onChange] and an [onBlur] among its passthrough attributes has the
    handlers of [register] replaced by them on its input, and the native
    value ["42"] is stored by neither event, as a number or otherwise. *)
Lemma numeric_field_overridden_stores_nothing :
  let out := (Field Samples.clsx Samples.styles MoreSamples.age Samples.empty).1 in
  let st' := (Field Samples.clsx Samples.styles MoreSamples.age Samples.empty).2 in
  type MoreSamples.age = Some "number"
  ∧ fields st' !! "age" = Some {| valueAsNumber := true |}
  ∧ ((λ st, values st !! "age") <$> fire "onChange" out (Samples.typing "42") st') = Some None
  ∧ ((λ st, values st !! "age") <$> fire "onBlur" out (Samples.typing "42") st') = Some None.
Proof. vm_compute. repeat split; reflexivity. Qed.

(** * Further properties of the code *)

(** ** The type dispatch *)

(** X1.  The [switch] has an arm for every member of the union [FieldType]
    and for nothing else: a [type] reaches [default] exactly when it is none
    of the twelve literals (the comparison is exact: ["Text"] is none). *)
Theorem fieldType_matches_union ty :
  is_Some (fieldType ty) ↔ ty ∈ fieldTypes.
Proof.
  split.
  - intros [ft Hft]. destruct (decide (ty ∈ fieldTypes)) as [Hin|Hout]; [done|].
    by rewrite (fieldType_unmatched ty Hout) in Hft.
  - intros Hin. apply list_elem_of_In in Hin. simpl in Hin.
    repeat (destruct Hin as [<-|Hin]; [by eexists|]). done.
Qed.

Lemma fieldType_matches_union_witness :
  is_Some (fieldType "tel") ∧ ¬ is_Some (fieldType "Text").
Proof.
  split.
  - apply (fieldType_matches_union "tel"). apply list_elem_of_In. simpl. tauto.
  - intros Hs. apply (fieldType_matches_union "Text") in Hs.
    apply list_elem_of_In in Hs. simpl in Hs.
    repeat (destruct Hs as [Hs|Hs]; [discriminate Hs|]). exact Hs.
Defined.

(** ** What a render leaves alone *)

(** X2.  Rendering a field never writes a form value and never touches the
    error map; of the bindings it can only add or replace the one under the
    name of the field. *)
Theorem render_frame cn styles p st :
  values (Field cn styles p st).2 = values st
  ∧ errors (Field cn styles p st).2 = errors st
  ∧ ∀ k, k ≠ name p → fields (Field cn styles p st).2 !! k = fields st !! k.
Proof.
  destruct (Field_effect cn styles p (values st) (errors st)) as (m & b & o & HF).
  rewrite (HF st eq_refl eq_refl). simpl.
  destruct b; simpl; repeat split; try done.
  intros k Hk. by rewrite lookup_insert_ne.
Qed.

Lemma render_frame_witness :
  fields (Field Samples.clsx Samples.styles (Samples.field "age" "number")
            (set_fields (<[ "name" := noOptions ]>) Samples.empty)).2 !! "name"
  = Some noOptions.
Proof.
  pose proof (render_frame Samples.clsx Samples.styles (Samples.field "age" "number")
                (set_fields (<[ "name" := noOptions ]>) Samples.empty)) as (_ & _ & Hk).
  rewrite (Hk "name"); [reflexivity | discriminate].
Defined.

(** X3.  What a rendered field binds under its name: [number] and [range]
    are bound with [valueAsNumber: true]; the text-like types, [checkbox]
    and [textarea] without options; [select] only when it has [options],
    [radio] only when it has at least one option; [file] and an unmatched
    type bind nothing.  A binding made by an earlier render under the same
    name is replaced. *)
Theorem render_binding cn styles p st :
  shouldRender p (values st) = true →
  fields (Field cn styles p st).2 =
    match fieldType (default "text" (type p)) with
    | Some (number | range) => <[name p := {| valueAsNumber := true |}]> (fields st)
    | Some select =>
        match options p with
        | Some _ => <[name p := noOptions]> (fields st)
        | None => fields st
        end
    | Some radio =>
        match options p with
        | Some (_ :: _) => <[name p := noOptions]> (fields st)
        | _ => fields st
        end
    | Some file | None => fields st
    | Some _ => <[name p := noOptions]> (fields st)
    end.
Proof.
  intros Hs. rewrite Field_shown by done. cbv zeta. unfold inputElement.
  destruct (fieldType _) as [[]|]; try (destruct (options p) as [[|opt opts]|]);
    try reflexivity.
  unfold mbind at 1, Render_bind at 1.
  erewrite mapM_Render;
    [| intros; reflexivity | apply set_fields_insert_twice].
  reflexivity.
Qed.

Lemma render_binding_witness :
  fields (Field Samples.clsx Samples.styles (Samples.field "age" "text")
            (Field Samples.clsx Samples.styles (Samples.field "age" "number")
               Samples.empty).2).2
  = {[ "age" := noOptions ]}.
Proof.
  rewrite (render_binding Samples.clsx Samples.styles (Samples.field "age" "text")) by reflexivity.
  rewrite (render_binding Samples.clsx Samples.styles (Samples.field "age" "number")) by reflexivity.
  vm_compute. reflexivity.
Defined.

(** ** Submitting without a callback *)

(** X4.  When [useSmartForm] is given no [onSubmit], the form submits to
    the empty function: whether the schema accepts or rejects, nothing of
    the caller is touched and the form values stay as they are. *)
Theorem Form_submit_without_callback cn World (props : HookProps World)
    children className st w :
  onSubmit props = None →
  let submit := form_onSubmit (Form cn World props children className) in
  (submit st w).2 = w ∧ values (submit st w).1 = values st.
Proof.
  intros Hn. simpl. rewrite Hn. unfold Engine.handleSubmit.
  destruct (schema props (values st)); split; reflexivity.
Qed.

Lemma Form_submit_without_callback_witness :
  (form_onSubmit (Form Samples.clsx _ MoreSamples.silent [] None)
     (Samples.named "Ada") []).2 = [].
Proof.
  apply (Form_submit_without_callback Samples.clsx _ MoreSamples.silent [] None
           (Samples.named "Ada") [] eq_refl).
Defined.

(** ** The controls of a field *)

Lemma Field_shown_markup cn styles p st :
  shouldRender p (values st) = true →
  (Field cn styles p st).1 =
    wrapper styles p (default "text" (type p)) (errors st !! name p)
      (bool_decide (is_Some (errors st !! name p)))
      (inputElement cn styles p (default "text" (type p)) (values st)
         (bool_decide (is_Some (errors st !! name p))) st).1.
Proof.
  intros Hs. rewrite Field_shown by done. cbv zeta.
  by destruct (inputElement _ _ _ _ _ _ _).
Qed.

Lemma controls_jsAnd_none c n : controls n = [] → controls (jsAnd c n) = [].
Proof. intros Hn. unfold jsAnd. by destruct (truthy c). Qed.

Lemma concat_controls_map {A} (g : A → ReactNode)
    (h : A → list (gmap string PropValue)) (l : list A) :
  (∀ a, controls (g a) = h a) →
  concat (controls <$> (g <$> l)) = l ≫= h.
Proof.
  intros Hg. induction l as [|a l IH]; [reflexivity|].
  rewrite !fmap_cons. cbn [concat]. rewrite Hg, IH. reflexivity.
Qed.

Lemma bind_singleton {A B} (h : A → B) (l : list A) :
  l ≫= (λ a, [h a]) = h <$> l.
Proof.
  induction l as [|a l IH]; [reflexivity|].
  change ((a :: l) ≫= (λ a, [h a])) with (h a :: (l ≫= (λ a, [h a]))).
  by rewrite IH.
Qed.

(** X5.  A rendered field has exactly one native control, with two
    exceptions: a [radio] field has one per option, and a field without a
    control ([select] or [radio] without [options], unmatched type) has
    none. *)
Theorem control_count cn styles p st :
  shouldRender p (values st) = true →
  length (controls (Field cn styles p st).1) =
    match fieldType (default "text" (type p)) with
    | Some select => match options p with Some _ => 1 | None => 0 end
    | Some radio => match options p with Some opts => length opts | None => 0 end
    | Some _ => 1
    | None => 0
    end.
Proof.
  intros Hs. rewrite Field_shown_markup, controls_wrapper by done.
  unfold inputElement.
  destruct (fieldType _) as [[]|]; try (destruct (options p) as [opts|]);
    try (unfold mbind at 1, Render_bind at 1;
         erewrite mapM_Render;
           [| intros; reflexivity | apply set_fields_insert_twice]);
    cbv beta iota zeta delta [mbind mret Render_bind Render_ret Engine.register fst];
    rewrite ?controls_RElem; cbn [isControl String.eqb Ascii.eqb Bool.eqb orb fmap list_fmap concat app];
    rewrite ?controls_RElem; cbn [isControl String.eqb Ascii.eqb Bool.eqb orb fmap list_fmap concat app];
    rewrite ?controls_jsAnd_none by (by rewrite controls_RElem);
    try reflexivity.
  - (* select *)
    rewrite (concat_controls_map _ (λ _, [])) by (intros; by rewrite controls_RElem).
    rewrite controls_childOf. simpl. by induction opts.
  - (* radio *)
    erewrite (concat_controls_map _ (λ a, [_])).
    2:{ intros a. rewrite !controls_RElem. simpl. reflexivity. }
    by rewrite bind_singleton, length_fmap.
Qed.

Lemma control_count_witness :
  length (controls (Field Samples.clsx Samples.styles MoreSamples.plan Samples.empty).1) = 2
  ∧ length (controls (Field Samples.clsx Samples.styles MoreSamples.student Samples.empty).1) = 1.
Proof.
  split.
  - apply (control_count Samples.clsx Samples.styles MoreSamples.plan Samples.empty eq_refl).
  - apply (control_count Samples.clsx Samples.styles MoreSamples.student Samples.empty eq_refl).
Defined.

(** ** Passthrough attributes *)

Section PassthroughFacts.

Variable rest : gmap string PropValue.



End PassthroughFacts.



(** X7.  A [radio] field ignores its passthrough attributes: two
    descriptors of type [radio] that differ in [rest] alone render the same
    markup and do the same to the engine. *)
Theorem radio_ignores_rest cn styles n l cbl opts sw cls dv r1 r2 st :
  Field cn styles
    {| name := n; label := l; checkBoxLabel := cbl; type := Some "radio";
       options := opts; showWhen := sw; className := cls; displayValue := dv;
       rest := r1 |} st
  = Field cn styles
      {| name := n; label := l; checkBoxLabel := cbl; type := Some "radio";
         options := opts; showWhen := sw; className := cls; displayValue := dv;
         rest := r2 |} st.
Proof. reflexivity. Qed.

(** ** Options *)

Lemma radio_controls cn styles p st opts :
  shouldRender p (values st) = true →
  type p = Some "radio" →
  options p = Some opts →
  ∃ h : string → gmap string PropValue,
    controls (Field cn styles p st).1 = h <$> opts
    ∧ (∀ opt, h opt !! "value" = Some (PJs (JStr opt)))
    ∧ (∀ opt, h opt !! "type" = Some (PJs (JStr "radio"))).
Proof.
  intros Hs Hty Hopt. rewrite Field_shown_markup, controls_wrapper by done.
  assert (Hft : fieldType (default "text" (type p)) = Some radio)
    by (by rewrite Hty).
  unfold inputElement. rewrite Hft, Hopt.
  unfold mbind at 1, Render_bind at 1.
  erewrite mapM_Render; [| intros; reflexivity | apply set_fields_insert_twice].
  cbv beta iota zeta delta [mbind mret Render_bind Render_ret Engine.register fst].
  rewrite controls_RElem. cbn [isControl String.eqb Ascii.eqb Bool.eqb orb app].
  erewrite (concat_controls_map _ (λ a, [_])).
  2:{ intros a. rewrite !controls_RElem. simpl. reflexivity. }
  rewrite bind_singleton. eexists. split; [reflexivity|].
  split; intros opt; unfold jsxProps; simpl.
  - rewrite lookup_insert_ne by done.
    rewrite lookup_union_r by (by rewrite !lookup_insert_ne).
    by rewrite lookup_insert_eq.
  - rewrite lookup_insert_ne by done.
    rewrite lookup_union_r by (by rewrite !lookup_insert_ne).
    rewrite lookup_insert_ne by done. by rewrite lookup_insert_eq.
Qed.

(** X8.  A rendered [radio] field with [options] has one radio input per
    option, in the order of the options: the inputs are of type ["radio"]
    and the [value] of the i-th is the i-th option. *)
Theorem radio_inputs_follow_options cn styles p st opts :
  shouldRender p (values st) = true →
  type p = Some "radio" →
  options p = Some opts →
  (λ props, props !! "value") <$> controls (Field cn styles p st).1
  = (λ opt, Some (PJs (JStr opt))) <$> opts
  ∧ Forall (λ props, props !! "type" = Some (PJs (JStr "radio")))
      (controls (Field cn styles p st).1).
Proof.
  intros Hs Hty Hopt.
  destruct (radio_controls cn styles p st opts Hs Hty Hopt) as (h & -> & Hv & Ht).
  split.
  - rewrite <- list_fmap_compose. apply list_fmap_ext. intros i opt _. apply Hv.
  - apply Forall_fmap, Forall_true. intros opt. apply Ht.
Qed.

Lemma radio_inputs_follow_options_witness :
  (λ props, props !! "value")
    <$> controls (Field Samples.clsx Samples.styles MoreSamples.plan Samples.empty).1
  = [Some (PJs (JStr "Free")); Some (PJs (JStr "Pro"))].
Proof.
  apply (radio_inputs_follow_options Samples.clsx Samples.styles MoreSamples.plan
           Samples.empty ["Free"; "Pro"] eq_refl eq_refl eq_refl).
Defined.

(** X9.  A rendered [select] field with [options] has, as the children of
    its [<select>], a placeholder option followed by one option per entry in
    the order of [options], each with the entry as its value and as its
    text.  The placeholder has the empty value; its text is the
    [placeholder] attribute when one is passed, the empty string included,
    and ["Select an option"] when none is. *)
Theorem select_children_follow_options cn styles p st opts :
  shouldRender p (values st) = true →
  type p = Some "select" →
  options p = Some opts →
  ∃ input placeholder,
    inputSlot (Field cn styles p st).1 = Some input
    ∧ tagOf input = Some "select"
    ∧ propOf "value" <$> childrenOf input
      = Some (PJs (JStr "")) :: ((λ opt, Some (PJs (JStr opt))) <$> opts)
    ∧ childrenOf <$> childrenOf input
      = [placeholder] :: ((λ opt, [RJs (JStr opt)]) <$> opts)
    ∧ (∀ s, rest p !! "placeholder" = Some (PJs (JStr s)) → placeholder = RJs (JStr s))
    ∧ (rest p !! "placeholder" = None → placeholder = RJs (JStr "Select an option")).
Proof.
  intros Hs Hty Hopt. rewrite Field_shown_markup by done.
  assert (Hft : fieldType (default "text" (type p)) = Some select)
    by (by rewrite Hty).
  unfold inputElement. rewrite Hft, Hopt.
  cbv beta iota zeta delta [mbind mret Render_bind Render_ret Engine.register fst].
  eexists _, _. split; [reflexivity|]. split; [reflexivity|].
  cbn [childrenOf]. rewrite !fmap_cons. split; [|split; [|split]].
  - f_equal.
    rewrite <- (list_fmap_compose _ (propOf "value")).
    apply list_fmap_ext. intros i opt _.
    unfold compose, propOf, jsxProps, foldl.
    rewrite lookup_insert_ne by done. by rewrite lookup_insert_eq.
  - f_equal.
    rewrite <- (list_fmap_compose _ childrenOf). by apply list_fmap_ext.
  - intros s Hp. unfold getProp. by rewrite Hp.
  - intros Hp. unfold getProp. by rewrite Hp.
Qed.

Lemma select_children_follow_options_witness :
  ∃ input placeholder,
    inputSlot (Field Samples.clsx Samples.styles MoreSamples.mood Samples.empty).1 = Some input
    ∧ tagOf input = Some "select"
    ∧ propOf "value" <$> childrenOf input
      = [Some (PJs (JStr "")); Some (PJs (JStr "Happy")); Some (PJs (JStr "Sad"))]
    ∧ placeholder = RJs (JStr "Select an option").
Proof.
  destruct (select_children_follow_options Samples.clsx Samples.styles MoreSamples.mood
              Samples.empty ["Happy"; "Sad"] eq_refl eq_refl eq_refl)
    as (input & placeholder & Hin & Htag & Hval & _ & _ & Hnone).
  exists input, placeholder. repeat split; [exact Hin | exact Htag | exact Hval |].
  apply Hnone. reflexivity.
Defined.

(** ** The label *)

(** X10.  On a rendered field the label above the control appears exactly
    when [label] is a non-empty string and the type is not ["checkbox"]; it
    is then a [<label>] with the text of [label], tied by [htmlFor] to the
    name of the field. *)
Theorem label_slot cn styles p st :
  shouldRender p (values st) = true →
  ∃ n, labelSlot (Field cn styles p st).1 = Some n
    ∧ renders n =
        match label p with
        | Some l => negb (String.eqb l "")
                    && negb (String.eqb (default "text" (type p)) "checkbox")
        | None => false
        end
    ∧ (renders n = true →
       tagOf n = Some "label"
       ∧ propOf "htmlFor" n = Some (PJs (JStr (name p)))
       ∧ childrenOf n = [RJs (optional JStr (label p))]).
Proof.
  intros Hs. rewrite Field_shown_markup by done.
  unfold wrapper, labelSlot. eexists. split; [reflexivity|].
  unfold jsAnd. destruct (label p) as [l|]; simpl; [|by split].
  destruct (String.eqb l "") eqn:El; simpl; rewrite ?El; simpl; [by split|].
  destruct (String.eqb (default "text" (type p)) "checkbox"); simpl; [by split|].
  split; [reflexivity|]. intros _. by repeat split.
Qed.

Lemma label_slot_witness :
  ∃ n, labelSlot (Field Samples.clsx Samples.styles MoreSamples.student Samples.empty).1 = Some n
    ∧ renders n = false.
Proof.
  destruct (label_slot Samples.clsx Samples.styles MoreSamples.student Samples.empty eq_refl)
    as (n & Hn & Hr & _).
  exists n. split; [exact Hn | exact Hr].
Defined.

(** ** More on file inputs *)

(** The handler of a file field without an [onChange] of its own, run in any
    later state of the engine. *)
Lemma change_file_later cn styles p st e st' :
  type p = Some "file" →
  shouldRender p (values st) = true →
  rest p !! "onChange" = None →
  change (Field cn styles p st).1 e st' = Some (fileOnChange (name p) (rest p) e st').
Proof.
  intros Hty Hs Hr. destruct (Field_file cn styles p st Hty Hs) as (props & -> & Hp).
  rewrite Hr in Hp. simpl in Hp. unfold change. simpl. by rewrite Hp.
Qed.

(** What the closure stores depends on the event and on [multiple] alone. *)
Lemma fileOnChange_setValue name rest e :
  ∃ v, ∀ st, fileOnChange name rest e st = Engine.setValue name v st.
Proof.
  unfold fileOnChange. destruct (truthyProp _); eexists; intros st; reflexivity.
Qed.

(** X11.  With [multiple], a change event on a rendered file field (with no
    [onChange] of its own) stores the array of all the selected files, in the
    order of the FileList; a null FileList is stored as the empty array, not
    as [null]. *)
Theorem file_change_multiple cn styles p st e :
  type p = Some "file" →
  shouldRender p (values st) = true →
  rest p !! "onChange" = None →
  truthyProp (getProp (rest p) "multiple") = true →
  change (Field cn styles p st).1 e st
  = Some (Engine.setValue (name p) (JArr (JFile <$> default [] (target_files e))) st).
Proof.
  intros Hty Hs Hr Hm.
  rewrite (change_file_later cn styles p st e st Hty Hs Hr).
  unfold fileOnChange. rewrite Hm. by destruct (target_files e).
Qed.

Lemma file_change_multiple_witness :
  ((λ st, values st !! "papers") <$>
     change (Field Samples.clsx Samples.styles MoreSamples.papers Samples.empty).1
       (Samples.selecting [Samples.photo; Samples.scan; MoreSamples.cv]) Samples.empty)
  = Some (Some (JArr [JFile Samples.photo; JFile Samples.scan; JFile MoreSamples.cv]))
  ∧ ((λ st, values st !! "papers") <$>
       change (Field Samples.clsx Samples.styles MoreSamples.papers Samples.empty).1
         (Samples.typing "") Samples.empty)
    = Some (Some (JArr [])).
Proof.
  split.
  - rewrite (file_change_multiple Samples.clsx Samples.styles MoreSamples.papers Samples.empty
               (Samples.selecting [Samples.photo; Samples.scan; MoreSamples.cv])
               eq_refl eq_refl eq_refl eq_refl).
    reflexivity.
  - rewrite (file_change_multiple Samples.clsx Samples.styles MoreSamples.papers Samples.empty
               (Samples.typing "") eq_refl eq_refl eq_refl eq_refl).
    reflexivity.
Defined.

(** X12.  Without [multiple], a change event that carries several files
    stores the first one only. *)
Theorem file_change_single_keeps_first cn styles p st e f more :
  type p = Some "file" →
  shouldRender p (values st) = true →
  rest p !! "onChange" = None →
  truthyProp (getProp (rest p) "multiple") = false →
  target_files e = Some (f :: more) →
  change (Field cn styles p st).1 e st = Some (Engine.setValue (name p) (JFile f) st).
Proof.
  intros Hty Hs Hr Hm Hf.
  rewrite (change_file_later cn styles p st e st Hty Hs Hr).
  unfold fileOnChange. by rewrite Hm, Hf.
Qed.

Lemma file_change_single_keeps_first_witness :
  ((λ st, values st !! "avatar") <$>
     change (Field Samples.clsx Samples.styles (Samples.field "avatar" "file") Samples.empty).1
       (Samples.selecting [Samples.photo; Samples.scan]) Samples.empty)
  = Some (Some (JFile Samples.photo)).
Proof.
  rewrite (file_change_single_keeps_first Samples.clsx Samples.styles
             (Samples.field "avatar" "file") Samples.empty
             (Samples.selecting [Samples.photo; Samples.scan]) Samples.photo [Samples.scan]
             eq_refl eq_refl eq_refl eq_refl eq_refl).
  reflexivity.
Defined.

(** X13.  A change event on a rendered file field (with no [onChange] of its
    own) writes under the name of the field and nowhere else: the other
    values, the error map and the bindings are left as they were.  And the
    last selection wins: after a second event the engine is as if the first
    had not happened, so that selections do not accumulate, with [multiple]
    or without. *)
Theorem file_change_frame cn styles p st e1 e2 st1 :
  type p = Some "file" →
  shouldRender p (values st) = true →
  rest p !! "onChange" = None →
  change (Field cn styles p st).1 e1 st = Some st1 →
  (∀ k, k ≠ name p → values st1 !! k = values st !! k)
  ∧ errors st1 = errors st
  ∧ fields st1 = fields st
  ∧ change (Field cn styles p st).1 e2 st1 = change (Field cn styles p st).1 e2 st.
Proof.
  intros Hty Hs Hr.
  rewrite !(change_file_later cn styles p st _ _ Hty Hs Hr).
  destruct (fileOnChange_setValue (name p) (rest p) e1) as [v1 ->].
  destruct (fileOnChange_setValue (name p) (rest p) e2) as [v2 H2].
  intros [= <-]. rewrite !H2. repeat split.
  - intros k Hk. unfold Engine.setValue. simpl. by rewrite lookup_insert_ne.
  - unfold Engine.setValue, set_values. simpl. by rewrite insert_insert_eq.
Qed.

Lemma file_change_frame_witness :
  ((λ st, values st !! "name") <$>
     change (Field Samples.clsx Samples.styles MoreSamples.papers (Samples.named "Ada")).1
       (Samples.selecting [Samples.photo]) (Samples.named "Ada"))
  = Some (Some (JStr "Ada")).
Proof.
  destruct (change (Field Samples.clsx Samples.styles MoreSamples.papers (Samples.named "Ada")).1
              (Samples.selecting [Samples.photo]) (Samples.named "Ada")) as [st1|] eqn:Hc.
  - destruct (file_change_frame Samples.clsx Samples.styles MoreSamples.papers
                (Samples.named "Ada") (Samples.selecting [Samples.photo])
                (Samples.selecting []) st1 eq_refl eq_refl eq_refl Hc) as (Hk & _).
    simpl. rewrite (Hk "name"); [reflexivity | discriminate].
  - vm_compute in Hc. discriminate Hc.
Defined.

(** X14.  The earlier version of the [file] handler and the current one,
    without [multiple], agree whenever a file is selected: both store the
    first file.  They part on an empty selection: the earlier version leaves
    the engine untouched, the current one overwrites the value with [null]. *)
Theorem legacy_file_handler name rest e st :
  truthyProp (getProp rest "multiple") = false →
  (∀ f, target_files e ≫= head = Some f →
     fileOnChange_legacy name e st = fileOnChange name rest e st
     ∧ fileOnChange name rest e st = Engine.setValue name (JFile f) st)
  ∧ (target_files e ≫= head = None →
       fileOnChange_legacy name e st = st
       ∧ fileOnChange name rest e st = Engine.setValue name JNull st).
Proof.
  intros Hm. unfold fileOnChange_legacy, fileOnChange. rewrite Hm.
  split; [intros f Hf | intros Hf]; rewrite Hf; by split.
Qed.

Lemma legacy_file_handler_witness :
  values (fileOnChange_legacy "avatar" (Samples.selecting [])
            (Engine.setValue "avatar" (JFile Samples.photo) Samples.empty)) !! "avatar"
  = Some (JFile Samples.photo)
  ∧ values (fileOnChange "avatar" (∅ : gmap string PropValue) (Samples.selecting [])
              (Engine.setValue "avatar" (JFile Samples.photo) Samples.empty)) !! "avatar"
    = Some JNull.
Proof.
  destruct (legacy_file_handler "avatar" (∅ : gmap string PropValue) (Samples.selecting [])
              (Engine.setValue "avatar" (JFile Samples.photo) Samples.empty))
    as [_ Hnone]; [reflexivity|].
  destruct Hnone as [-> ->]; [reflexivity|]. split; reflexivity.
Defined.

(** ** What the engine is told, and what it stores then *)

Lemma Field_numeric_state cn styles p st :
  shouldRender p (values st) = true →
  type p = Some "number" ∨ type p = Some "range" →
  (Field cn styles p st).2 = set_fields (<[name p := {| valueAsNumber := true |}]>) st.
Proof.
  intros Hs Hty. rewrite Field_shown by done.
  by destruct Hty as [-> | ->].
Qed.

Lemma Field_text_state cn styles p st :
  shouldRender p (values st) = true →
  default "text" (type p) ∈ ["text"; "email"; "date"; "tel"; "password"; "textarea"] →
  (Field cn styles p st).2 = set_fields (<[name p := noOptions]>) st.
Proof.
  intros Hs Hty. rewrite Field_shown by done. cbv zeta.
  apply list_elem_of_In in Hty. simpl in Hty.
  repeat (destruct Hty as [<-|Hty]; [reflexivity|]). done.
Qed.

(** X15.  A rendered text, email, date, tel, password or textarea field is
    bound without options, so what the engine stores for it is the native
    value as a string, digits included: ["42"] stays the string ["42"]. *)
Theorem text_field_stores_string cn styles p st e :
  shouldRender p (values st) = true →
  default "text" (type p) ∈ ["text"; "email"; "date"; "tel"; "password"; "textarea"] →
  let st' := (Field cn styles p st).2 in
  fields st' !! name p = Some noOptions
  ∧ values (Engine.fieldChange (name p) e st') !! name p = Some (JStr (target_value e)).
Proof.
  intros Hs Hty. cbv zeta. rewrite (Field_text_state cn styles p st Hs Hty).
  assert (Hf : fields (set_fields (<[name p := noOptions]>) st) !! name p = Some noOptions)
    by (simpl; apply lookup_insert_eq).
  split; [exact Hf|].
  unfold Engine.fieldChange. rewrite Hf. simpl. apply lookup_insert_eq.
Qed.

Lemma text_field_stores_string_witness :
  values (Engine.fieldChange "email" (Samples.typing "42")
            (Field Samples.clsx Samples.styles MoreSamples.email Samples.empty).2) !! "email"
  = Some (JStr "42").
Proof.
  apply (text_field_stores_string Samples.clsx Samples.styles MoreSamples.email Samples.empty
           (Samples.typing "42")).
  - reflexivity.
  - apply list_elem_of_In. simpl. tauto.
Defined.

(** X16.  The text under a [range] input.  On a rendered [range] field the
    child after the input appears exactly when [displayValue] is true, and
    its text is then the value that the watched values hold under the name of
    the field.  So, once the engine has stored what the input was given, the
    next render shows the stored number. *)
Theorem range_shows_stored_value cn styles p st :
  type p = Some "range" →
  shouldRender p (values st) = true →
  (∃ aux, auxSlot (Field cn styles p st).1 = Some aux
     ∧ renders aux = default false (displayValue p)
     ∧ (displayValue p = Some true →
        childrenOf aux = [RJs (default JUndefined (values st !! name p))]))
  ∧ (∀ e, let st1 := Engine.fieldChange (name p) e (Field cn styles p st).2 in
       displayValue p = Some true →
       shouldRender p (values st1) = true →
       ∃ aux, auxSlot (Field cn styles p st1).1 = Some aux
         ∧ childrenOf aux = [RJs (Engine.toNumber (target_value e))]).
Proof.
  intros Hty Hs.
  assert (Haux : ∀ st0, shouldRender p (values st0) = true →
            auxSlot (Field cn styles p st0).1
            = Some (jsAnd (optional JBool (displayValue p))
                      (RElem "div"
                         (jsxProps [Attr "className" (jsStr "text-sm text-muted-foreground mt-1")])
                         [RJs (default JUndefined (values st0 !! name p))]))).
  { intros st0 Hs0. rewrite Field_shown_markup by done. by rewrite Hty. }
  split.
  - eexists. split; [by apply Haux|].
    unfold jsAnd. destruct (displayValue p) as [[]|]; simpl; split; try done.
  - intros e st1 Hd Hs1. eexists. split; [by apply Haux|].
    rewrite Hd. simpl. do 2 f_equal. subst st1.
    rewrite (Field_numeric_state cn styles p st Hs (or_intror Hty)).
    unfold Engine.fieldChange. simpl. rewrite !lookup_insert_eq. reflexivity.
Qed.

Lemma range_shows_stored_value_witness :
  (∃ aux,
     auxSlot (Field Samples.clsx Samples.styles MoreSamples.volume
                (Engine.fieldChange "volume" (Samples.typing "42")
                   (Field Samples.clsx Samples.styles MoreSamples.volume Samples.empty).2)).1
     = Some aux
     ∧ childrenOf aux = [RJs (JNum 42)])
  ∧ (∃ aux,
       auxSlot (Field Samples.clsx Samples.styles MoreSamples.volume
                  (Engine.fieldChange "volume" (Samples.typing "-5")
                     (Field Samples.clsx Samples.styles MoreSamples.volume Samples.empty).2)).1
       = Some aux
       ∧ childrenOf aux = [RJs (JNum (-5))])
  ∧ (∃ aux,
       auxSlot (Field Samples.clsx Samples.styles MoreSamples.volume
                  (Engine.fieldChange "volume" (Samples.typing "4.5")
                     (Field Samples.clsx Samples.styles MoreSamples.volume Samples.empty).2)).1
       = Some aux
       ∧ childrenOf aux = [RJs (JDec 45 (-1))]).
Proof.
  destruct (range_shows_stored_value Samples.clsx Samples.styles MoreSamples.volume
              Samples.empty eq_refl eq_refl) as [_ Hnext].
  split; [|split].
  - apply (Hnext (Samples.typing "42")); reflexivity.
  - apply (Hnext (Samples.typing "-5")); reflexivity.
  - apply (Hnext (Samples.typing "4.5")); reflexivity.
Defined.
